(** * StudyHub courses: progress ledger and cart checkout

    A shallow embedding of the parts of [studyhub/courses/models.py] and
    [studyhub/courses/views.py] that record lesson progress, compute the
    module and course roll-ups, and turn the session cart into an order.

    Tables are finite maps from primary keys (or from the columns of a
    [unique_together] constraint) to rows; views pass the database through
    explicitly and return it next to the HTTP response. *)

From Stdlib Require Import ZArith List Bool Lia SpecFloat.
From stdpp Require Import gmap strings list fin_maps pretty sorting.

Local Open Scope Z_scope.

(** ** Python numbers *)

(** CPython's [float] is IEEE 754 binary64: 53 bits of precision, round to
    nearest even. The operations below are the ones the percentage
    expression uses. *)
Module PyFloat.

Definition prec : Z := 53.
Definition emax : Z := 1024.

Definition float : Type := spec_float.

(** [float(n)] for an integer [n]. *)
Definition of_int (n : Z) : float := binary_normalize prec emax n 0 false.

(** [a / b] on two integers (true division); the caller guards [b > 0].
    Both operands are row counts, far below 2^53, so their conversion is
    exact and the quotient is the correctly rounded one. *)
Definition truediv (a b : Z) : float := SFdiv prec emax (of_int a) (of_int b).

(** [x * n] for a float [x] and an integer [n]. *)
Definition mul_int (x : float) (n : Z) : float := SFmul prec emax x (of_int n).

(** [int(x)]: truncation toward zero. Python raises on an infinity or a
    NaN, which is [None] here. *)
Definition to_int (x : float) : option Z :=
  match x with
  | S754_zero _ => Some 0
  | S754_finite s m e =>
      let a := if 0 <=? e then Z.shiftl (Zpos m) e else Z.shiftr (Zpos m) (- e) in
      Some (if s then - a else a)
  | S754_infinity _ | S754_nan => None
  end.

End PyFloat.

(** The expression
    [int((completed / total) * 100) if total > 0 else 0]
    that the views repeat for every roll-up. *)
Definition percentage (completed total : nat) : option Z :=
  if (0 <? total)%nat
  then PyFloat.to_int
         (PyFloat.mul_int (PyFloat.truediv (Z.of_nat completed) (Z.of_nat total)) 100)
  else Some 0.

(** What the specification asks for: exact integer floor division. *)
Definition floor_percentage (completed total : nat) : Z :=
  if (0 <? total)%nat then (100 * Z.of_nat completed) / Z.of_nat total else 0.

(** ** Models *)

(** A [datetime] as the reading of its own clock (UTC for the aware
    values of [timezone.now()]): microseconds since 1970-01-01 00:00. *)
Definition datetime : Type := Z.

(** Year, month and day of the day that lies [days] days after
    1970-01-01, in the proleptic Gregorian calendar of [datetime]. *)
Definition civil_from_days (days : Z) : Z * Z * Z :=
  let z := days + 719468 in
  let era := z / 146097 in
  let doe := z - era * 146097 in
  let yoe := (doe - doe / 1460 + doe / 36524 - doe / 146096) / 365 in
  let doy := doe - (365 * yoe + yoe / 4 - yoe / 100) in
  let mp := (5 * doy + 2) / 153 in
  let d := doy - (153 * mp + 2) / 5 + 1 in
  let m := if mp <? 10 then mp + 3 else mp - 9 in
  let y := yoe + era * 400 + (if m <=? 2 then 1 else 0) in
  (y, m, d).

(** A number below 100 in two digits. *)
Definition pad2 (n : Z) : string :=
  if n <? 10 then "0" +:+ pretty n else pretty n.

(** [t.strftime('%d.%m.%Y %H:%M')], for the years 1000 to 9999 where the
    year has four digits on every platform. *)
Definition strftime (t : datetime) : string :=
  let minutes := t / 60000000 in
  let '(y, m, d) := civil_from_days (minutes / 1440) in
  pad2 d +:+ "." +:+ pad2 m +:+ "." +:+ pretty y +:+ " "
    +:+ pad2 (minutes / 60 mod 24) +:+ ":" +:+ pad2 (minutes mod 60).

Module Course.
(** [price] is a [DecimalField] with two decimal places, kept in
    hundredths. *)
Record t := { price : Z; is_free : bool; is_published : bool }.
End Course.

(** The model called [Module] in the source. *)
Module CourseModule.
Record t := { course : nat }.
End CourseModule.

Module Lesson.
Record t := { module : nat; order : nat; is_published : bool }.
End Lesson.

Module Enrollment.
Record t := { completed : bool }.
End Enrollment.

Module Progress.
Record t := { completed : bool; completed_at : option datetime }.

(** [Progress.save]: the assignments made to [self] before the row is
    written. *)
Definition save (now : datetime) (self : t) : t :=
  if completed self && negb (bool_decide (is_Some (completed_at self)))
  then {| completed := completed self; completed_at := Some now |}
  else if negb (completed self)
  then {| completed := completed self; completed_at := None |}
  else self.
End Progress.

Module Order.
Record t := { user : nat; status : string }.
End Order.

Module OrderItem.
Record t := { order : nat; course : nat; price : Z }.
End OrderItem.

(** The database. [enrollments] and [progress] are keyed by the pair of
    their [unique_together] constraint: (user, course) and (user, lesson).
    Orders and order items are only ever appended; the primary key of an
    order is its position, counted from one. The bookkeeping columns
    ([created_at], [updated_at], [enrolled_at]) and the descriptive ones
    (titles, texts) are left out: no view modelled here reads them. *)
Record DB := {
  courses : gmap nat Course.t;
  modules : gmap nat CourseModule.t;
  lessons : gmap nat Lesson.t;
  enrollments : gmap (nat * nat) Enrollment.t;
  progress : gmap (nat * nat) Progress.t;
  orders : list Order.t;
  order_items : list OrderItem.t
}.

Definition set_progress (db : DB) (p : gmap (nat * nat) Progress.t) : DB :=
  {| courses := courses db; modules := modules db; lessons := lessons db;
     enrollments := enrollments db; progress := p;
     orders := orders db; order_items := order_items db |}.

Definition set_enrollments (db : DB) (e : gmap (nat * nat) Enrollment.t) : DB :=
  {| courses := courses db; modules := modules db; lessons := lessons db;
     enrollments := e; progress := progress db;
     orders := orders db; order_items := order_items db |}.

Definition set_orders (db : DB) (o : list Order.t) : DB :=
  {| courses := courses db; modules := modules db; lessons := lessons db;
     enrollments := enrollments db; progress := progress db;
     orders := o; order_items := order_items db |}.

Definition set_order_items (db : DB) (i : list OrderItem.t) : DB :=
  {| courses := courses db; modules := modules db; lessons := lessons db;
     enrollments := enrollments db; progress := progress db;
     orders := orders db; order_items := i |}.

(** ** Requests and responses *)

Inductive User :=
| AnonymousUser
| AuthenticatedUser (pk : nat).

Definition is_authenticated (u : User) : bool :=
  match u with AnonymousUser => false | AuthenticatedUser _ => true end.

(** The request of the progress endpoint after its [lesson_id] parameter
    has been read as a primary key ([RawRequest] below is the request as
    it arrives); a missing or empty parameter is [None]. *)
Record Request := {
  user : User;
  POST_lesson_id : option nat;
  POST_completed : option string
}.

(** The body of a success response, without its constant [success] field;
    [resp_completed_at] is the formatted timestamp or null. *)
Record ProgressPayload := {
  resp_completed : bool;
  resp_completed_at : option string;
  module_progress : Z;
  course_progress : Z;
  module_completed : nat;
  module_total : nat;
  course_completed : nat;
  course_total : nat;
  message : string
}.

Inductive JsonBody :=
| JsonError (error : string)
| JsonOk (payload : ProgressPayload).

Inductive HttpResponse :=
| JsonResponse (status : nat) (body : JsonBody)
| Http404
| HttpResponseRedirect (to : string)
| HttpResponseServerError.

(** ** Queries *)

Local Open Scope nat_scope.

(** [lesson.module.course] by primary keys; [None] when a foreign key
    dangles. *)
Definition module_course (db : DB) (module_pk : nat) : option nat :=
  CourseModule.course <$> modules db !! module_pk.

Definition lesson_course (db : DB) (lesson_pk : nat) : option nat :=
  l ← lessons db !! lesson_pk; module_course db (Lesson.module l).

(** The join conditions [lesson__module=module] and
    [lesson__module__course=course] on a lesson key. *)
Definition in_module (db : DB) (module_pk lesson_pk : nat) : bool :=
  bool_decide (Lesson.module <$> lessons db !! lesson_pk = Some module_pk).

Definition in_course (db : DB) (course_pk lesson_pk : nat) : bool :=
  bool_decide (lesson_course db lesson_pk = Some course_pk).

(** [Progress.objects.filter(user=u, <scope>, completed=True).count()] *)
Definition count_completed (db : DB) (uid : nat) (scope : nat -> bool) : nat :=
  length
    (List.filter
       (fun row : nat * nat * Progress.t =>
          Nat.eqb row.1.1 uid && scope row.1.2 && Progress.completed row.2)
       (map_to_list (progress db))).

(** [module.lessons.count()] and
    [Lesson.objects.filter(module__course=course).count()]: neither filters
    on [is_published]. *)
Definition count_lessons (db : DB) (scope : nat -> bool) : nat :=
  length
    (List.filter (fun row : nat * Lesson.t => scope row.1)
       (map_to_list (lessons db))).

(** [user.enrollment_set.filter(course=course).exists()] for a user of the
    [User] model, which has the [enrollment_set] accessor that the view
    probes with [hasattr]. *)
Definition is_enrolled (db : DB) (uid course_pk : nat) : bool :=
  bool_decide (is_Some (enrollments db !! (uid, course_pk))).

(** ** The progress endpoint *)

(** [Progress.objects.get_or_create(user, lesson, defaults={'completed': c})]
    followed by the update of an existing row. A new row is written through
    [Progress.save]; an existing one gets [completed] assigned and is saved
    again. Returns the instance and the table. *)
Definition toggle (now : datetime) (uid lesson_pk : nat) (completed : bool)
    (table : gmap (nat * nat) Progress.t) : Progress.t * gmap (nat * nat) Progress.t :=
  match table !! (uid, lesson_pk) with
  | None =>
      let p := Progress.save now
                 {| Progress.completed := completed; Progress.completed_at := None |} in
      (p, <[(uid, lesson_pk) := p]> table)
  | Some existing =>
      let p := Progress.save now
                 {| Progress.completed := completed;
                    Progress.completed_at := Progress.completed_at existing |} in
      (p, <[(uid, lesson_pk) := p]> table)
  end.

(** [MarkLessonCompletedView.post]. An exception that escapes the view
    (a dangling foreign key, [int] of a non-finite float) is the server
    error response; the row saved before it stays saved. *)
Definition MarkLessonCompletedView_post (request : Request) (now : datetime)
    (db : DB) : HttpResponse * DB :=
  let completed := bool_decide (POST_completed request = Some "true"%string) in
  match POST_lesson_id request with
  | None => (JsonResponse 400 (JsonError "Не указан ID урока"), db)
  | Some lesson_id =>
  match lessons db !! lesson_id with
  | None => (Http404, db)
  | Some lesson =>
  match user request with
  | AnonymousUser => (JsonResponse 403 (JsonError "Требуется авторизация"), db)
  | AuthenticatedUser uid =>
  match module_course db (Lesson.module lesson) with
  | None => (HttpResponseServerError, db)
  | Some course =>
  if negb (is_enrolled db uid course)
  then (JsonResponse 403 (JsonError "Вы не записаны на этот курс"), db)
  else
    let '(p, table) := toggle now uid lesson_id completed (progress db) in
    let db' := set_progress db table in
    let module := Lesson.module lesson in
    let module_completed := count_completed db' uid (in_module db' module) in
    let module_total := count_lessons db' (in_module db' module) in
    let course_completed := count_completed db' uid (in_course db' course) in
    let course_total := count_lessons db' (in_course db' course) in
    match percentage module_completed module_total,
          percentage course_completed course_total with
    | Some module_progress, Some course_progress =>
        (JsonResponse 200
           (JsonOk
              {| resp_completed := Progress.completed p;
                 resp_completed_at := strftime <$> Progress.completed_at p;
                 module_progress := module_progress;
                 course_progress := course_progress;
                 module_completed := module_completed;
                 module_total := module_total;
                 course_completed := course_completed;
                 course_total := course_total;
                 message := if completed
                            then "Урок отмечен как пройденный"
                            else "Урок отмечен как непройденный" |}),
         db')
    | _, _ => (HttpResponseServerError, db')
    end
  end end end end.

(** [LoginRequiredMixin.dispatch] in front of [post]: an anonymous request
    is answered by [handle_no_permission], the redirect to the login page,
    and the handler does not run. Only the POST method is modelled. *)
Definition MarkLessonCompletedView_dispatch (request : Request) (now : datetime)
    (db : DB) : HttpResponse * DB :=
  if is_authenticated (user request)
  then MarkLessonCompletedView_post request now db
  else (HttpResponseRedirect "login", db).

(** ** The request as it arrives *)

(** The POST parameters as the strings they are, [None] for a parameter
    that is not sent. *)
Record RawRequest := {
  raw_user : User;
  raw_lesson_id : option string;
  raw_completed : option string
}.

(** [MarkLessonCompletedView.post] from the raw parameters. [int_of_str]
    is Python's [int] on a string, [None] where it raises [ValueError]:
    the lookup [pk=lesson_id] converts the parameter with it, and
    [get_object_or_404] lets the [ValueError] through, which ends in the
    server error response. A negative key, like a key beyond the range of
    the column, has no row. *)
Definition MarkLessonCompletedView_post_raw (int_of_str : string -> option Z)
    (request : RawRequest) (now : datetime) (db : DB) : HttpResponse * DB :=
  match raw_lesson_id request with
  | None => (JsonResponse 400 (JsonError "Не указан ID урока"), db)
  | Some lesson_id =>
      if Nat.eqb (String.length lesson_id) 0
      then (JsonResponse 400 (JsonError "Не указан ID урока"), db)
      else
        match int_of_str lesson_id with
        | None => (HttpResponseServerError, db)
        | Some pk =>
            if (pk <? 0)%Z then (Http404, db)
            else
              MarkLessonCompletedView_post
                {| user := raw_user request;
                   POST_lesson_id := Some (Z.to_nat pk);
                   POST_completed := raw_completed request |} now db
        end
  end.

(** The endpoint from the raw parameters, behind the login gate. *)
Definition MarkLessonCompletedView_dispatch_raw (int_of_str : string -> option Z)
    (request : RawRequest) (now : datetime) (db : DB) : HttpResponse * DB :=
  if is_authenticated (raw_user request)
  then MarkLessonCompletedView_post_raw int_of_str request now db
  else (HttpResponseRedirect "login", db).


(** ** Cart checkout *)

Inductive Message :=
| MessageWarning (text : string)
| MessageSuccess (text : string).

(** The session of the requesting user: the cart (a list of course keys)
    and the queued flash messages. *)
Record Session := { cart : list nat; messages : list Message }.

(** [CheckoutView.get_cart_courses]:
    [Course.objects.filter(id__in=cart_ids, is_published=True)]. The rows
    come in the order of the table; the source orders them by creation
    date, and nothing below depends on the order. *)
Definition get_cart_courses (session : Session) (db : DB) : list (nat * Course.t) :=
  List.filter
    (fun row : nat * Course.t =>
       bool_decide (row.1 ∈ cart session) && Course.is_published row.2)
    (map_to_list (courses db)).

Definition item_price (c : Course.t) : Z :=
  if Course.is_free c then 0%Z else Course.price c.

(** [Enrollment.objects.get_or_create(user=u, course=c)] *)
Definition enroll (uid course_pk : nat) (db : DB) : DB :=
  match enrollments db !! (uid, course_pk) with
  | Some _ => db
  | None =>
      set_enrollments db
        (<[(uid, course_pk) := {| Enrollment.completed := false |}]> (enrollments db))
  end.

(** The body of the loop over the cart courses: one order item, then the
    enrollment. *)
Definition checkout_course (uid order_pk : nat) (db : DB) (row : nat * Course.t) : DB :=
  enroll uid row.1
    (set_order_items db
       (order_items db ++
          [{| OrderItem.order := order_pk; OrderItem.course := row.1;
              OrderItem.price := item_price row.2 |}])).

(** [CheckoutView.post] for the authenticated user [uid] (the view sits
    behind [LoginRequiredMixin]). *)
Definition CheckoutView_post (uid : nat) (session : Session) (db : DB)
    : HttpResponse * Session * DB :=
  match get_cart_courses session db with
  | [] =>
      (HttpResponseRedirect "cart",
       {| cart := cart session;
          messages := messages session ++ [MessageWarning "Ваша корзина пуста."] |},
       db)
  | cart_courses =>
      let order_pk := S (length (orders db)) in
      let db1 := set_orders db
                   (orders db ++ [{| Order.user := uid; Order.status := "paid" |}]) in
      let db2 := fold_left (checkout_course uid order_pk) cart_courses db1 in
      (HttpResponseRedirect "orders_history",
       {| cart := [];
          messages :=
            messages session ++
              [MessageSuccess
                 ("Заказ #" +:+ pretty order_pk +:+
                  " успешно оформлен. Доступ к курсам выдан.")] |},
       db2)
  end.

(** ** Properties of the ledger *)

(** The invariant of a progress row. *)
Definition stamped_iff_completed (p : Progress.t) : Prop :=
  is_Some (Progress.completed_at p) <-> Progress.completed p = true.

(** The invariant on a whole progress table. *)
Definition all_stamped (table : gmap (nat * nat) Progress.t) : Prop :=
  forall k p, table !! k = Some p -> stamped_iff_completed p.

(** States of the database the application can get to. Progress rows start
    out absent and are written by the progress endpoint only; every other
    view leaves the table as it is or, by a cascading delete, removes rows
    from it. *)
Inductive reachable : DB -> Prop :=
| reachable_empty db :
    progress db = ∅ -> reachable db
| reachable_toggle db request now :
    reachable db ->
    reachable (MarkLessonCompletedView_dispatch request now db).2
| reachable_other db db' :
    reachable db -> progress db' ⊆ progress db -> reachable db'.


(** Lessons of a scope counted separately by their [is_published] flag. *)
Definition count_lessons_flagged (db : DB) (scope : nat -> bool) (flag : bool) : nat :=
  length
    (List.filter
       (fun row : nat * Lesson.t =>
          scope row.1 && Bool.eqb (Lesson.is_published row.2) flag)
       (map_to_list (lessons db))).


(** The same catalog with every lesson's [is_published] flag replaced by
    [publish lesson_pk lesson]. *)
Definition republish (publish : nat -> Lesson.t -> bool) (db : DB) : DB :=
  {| courses := courses db; modules := modules db;
     lessons :=
       map_imap
         (fun k r => Some {| Lesson.module := Lesson.module r;
                             Lesson.order := Lesson.order r;
                             Lesson.is_published := publish k r |})
         (lessons db);
     enrollments := enrollments db; progress := progress db;
     orders := orders db; order_items := order_items db |}.

(** ** Properties of the checkout *)

(** The order item the specification asks for: zero for a free course, the
    course's price otherwise. *)
Definition line_item (order_pk : nat) (row : nat * Course.t) : OrderItem.t :=
  {| OrderItem.order := order_pk; OrderItem.course := row.1;
     OrderItem.price :=
       if Course.is_free row.2 then 0%Z else Course.price row.2 |}.
(** ** Sample data *)

(** A catalog of one course with one module of [n] lessons, numbered from
    one; user 7 is enrolled and has completed the first [k] lessons. *)
Definition single_module_db (n k : nat) : DB :=
  {| courses := {[ 1 := {| Course.price := 0%Z; Course.is_free := true;
                          Course.is_published := true |} ]};
     modules := {[ 1 := {| CourseModule.course := 1 |} ]};
     lessons :=
       list_to_map
         (List.map (fun i => (i, {| Lesson.module := 1; Lesson.order := i;
                                    Lesson.is_published := true |}))
            (seq 1 n));
     enrollments := {[ (7, 1) := {| Enrollment.completed := false |} ]};
     progress :=
       list_to_map
         (List.map (fun i => ((7, i), {| Progress.completed := true;
                                         Progress.completed_at := Some 1000%Z |}))
            (seq 1 k));
     orders := [];
     order_items := [] |}.

Definition mark (uid lesson_pk : nat) (completed : string) : Request :=
  {| user := AuthenticatedUser uid;
     POST_lesson_id := Some lesson_pk;
     POST_completed := Some completed |}.

Definition payload_of (r : HttpResponse) : option ProgressPayload :=
  match r with
  | JsonResponse 200 (JsonOk p) => Some p
  | _ => None
  end.

Definition mark_raw (user : User) (lesson_id completed : string) : RawRequest :=
  {| raw_user := user;
     raw_lesson_id := Some lesson_id;
     raw_completed := Some completed |}.

(** Python's [int] on a string of ASCII characters, for examples: white
    space around an optional sign and decimal digits, which single
    underscores may separate. *)
Definition ascii_space (c : Ascii.ascii) : bool :=
  let n := Ascii.nat_of_ascii c in
  Nat.eqb n 32 || (Nat.leb 9 n && Nat.leb n 13).

Definition ascii_digit (c : Ascii.ascii) : option Z :=
  let n := Ascii.nat_of_ascii c in
  if Nat.leb 48 n && Nat.leb n 57 then Some (Z.of_nat (n - 48)) else None.

Fixpoint ascii_lstrip (s : string) : string :=
  match s with
  | String c s' => if ascii_space c then ascii_lstrip s' else s
  | EmptyString => s
  end.

Fixpoint ascii_all_space (s : string) : bool :=
  match s with
  | String c s' => ascii_space c && ascii_all_space s'
  | EmptyString => true
  end.

Fixpoint ascii_digits (acc : Z) (after_digit : bool) (s : string) : option Z :=
  match s with
  | EmptyString => if after_digit then Some acc else None
  | String c s' =>
      match ascii_digit c with
      | Some d => ascii_digits (10 * acc + d)%Z true s'
      | None =>
          if after_digit && Nat.eqb (Ascii.nat_of_ascii c) 95
          then ascii_digits acc false s'
          else if after_digit && ascii_all_space s then Some acc else None
      end
  end.

Definition ascii_int_of_str (s : string) : option Z :=
  match ascii_lstrip s with
  | String c s' =>
      if Nat.eqb (Ascii.nat_of_ascii c) 45 then Z.opp <$> ascii_digits 0%Z false s'
      else if Nat.eqb (Ascii.nat_of_ascii c) 43 then ascii_digits 0%Z false s'
      else ascii_digits 0%Z false (String c s')
  | EmptyString => None
  end.


(** A catalog of three courses: course 1 is paid and published, course 2
    is free and published, course 3 is unpublished. User 7 is already
    enrolled in course 2. *)
Definition shop_db : DB :=
  {| courses :=
       <[1 := {| Course.price := 99000%Z; Course.is_free := false;
                 Course.is_published := true |}]>
       (<[2 := {| Course.price := 50000%Z; Course.is_free := true;
                  Course.is_published := true |}]>
       {[ 3 := {| Course.price := 70000%Z; Course.is_free := false;
                  Course.is_published := false |} ]});
     modules := ∅; lessons := ∅;
     enrollments := {[ (7, 2) := {| Enrollment.completed := true |} ]};
     progress := ∅; orders := []; order_items := [] |}.

Definition session_with (ids : list nat) : Session :=
  {| cart := ids; messages := [] |}.

(** ** The cart views *)

(** A flash message of the views below: its level and its text. *)
Inductive Level := LevelInfo | LevelSuccess | LevelWarning | LevelError.

Definition Notice : Type := Level * string.

(** [list.remove(x)]: the list without the first occurrence of [x]. *)
Fixpoint list_remove (x : nat) (l : list nat) : list nat :=
  match l with
  | [] => []
  | y :: l' => if decide (y = x) then l' else y :: list_remove x l'
  end.

(** [AddToCartView.post] for course key [pk] and the session cart, behind
    [LoginRequiredMixin]. [course_title] is the title column of the course
    table. Returns the response, the cart and the message queued. *)
Definition AddToCartView_post (course_title : nat -> string) (pk : nat)
    (cart : list nat) (db : DB) : HttpResponse * list nat * option Notice :=
  match courses db !! pk with
  | None => (Http404, cart, None)
  | Some course =>
      if negb (Course.is_published course) then (Http404, cart, None)
      else if negb (bool_decide (pk ∈ cart))
      then (HttpResponseRedirect "cart", cart ++ [pk],
            Some (LevelSuccess,
                  "Курс «" +:+ course_title pk +:+ "» добавлен в корзину."))
      else (HttpResponseRedirect "cart", cart,
            Some (LevelInfo, "Этот курс уже есть в вашей корзине."%string))
  end.

(** [RemoveFromCartView.post] *)
Definition RemoveFromCartView_post (pk : nat) (cart : list nat)
    : HttpResponse * list nat * option Notice :=
  if bool_decide (pk ∈ cart)
  then (HttpResponseRedirect "cart", list_remove pk cart,
        Some (LevelSuccess, "Курс удалён из корзины."%string))
  else (HttpResponseRedirect "cart", cart, None).

(** [sum(...)] over decimals. *)
Definition decimal_sum (l : list Z) : Z := fold_left Z.add l 0%Z.

(** [CartView.get_context_data] and [CheckoutView.get_context_data]: the
    courses shown and
    [sum(course.price for course in courses if not course.is_free)]. *)
Definition CheckoutView_get_context_data (session : Session) (db : DB)
    : list (nat * Course.t) * Z :=
  let courses := get_cart_courses session db in
  (courses,
   decimal_sum
     (List.map (fun row : nat * Course.t => Course.price row.2)
        (List.filter (fun row : nat * Course.t => negb (Course.is_free row.2))
           courses))).

(** [OrderItem.total_price] and [Order.total_amount] for the order with
    key [order_pk]. *)
Definition OrderItem_total_price (item : OrderItem.t) : Z := OrderItem.price item.

Definition Order_total_amount (db : DB) (order_pk : nat) : Z :=
  decimal_sum
    (List.map OrderItem_total_price
       (List.filter (fun item => Nat.eqb (OrderItem.order item) order_pk)
          (order_items db))).

(** ** Enrolling *)

(** The request method: [quick_enroll] tells POST from everything else. *)
Inductive Method := POST | OtherMethod.

(** The double quote character as a string. *)
Definition dquote : string := String (Ascii.ascii_of_nat 34) EmptyString.

(** The URL name with its key argument, as given to [redirect] and
    [reverse_lazy]. *)
Definition url_with_pk (name : string) (pk : nat) : string :=
  name +:+ "/" +:+ pretty pk.

(** [quick_enroll], with its [login_required] decorator. *)
Definition quick_enroll (course_title : nat -> string) (method : Method)
    (user : User) (pk : nat) (db : DB) : HttpResponse * option Notice * DB :=
  match user with
  | AnonymousUser => (HttpResponseRedirect "login", None, db)
  | AuthenticatedUser uid =>
      match method with
      | POST =>
          match courses db !! pk with
          | None => (Http404, None, db)
          | Some course =>
              if is_enrolled db uid pk
              then (HttpResponseRedirect (url_with_pk "course_detail" pk),
                    Some (LevelWarning, "Вы уже записаны на этот курс!"%string),
                    db)
              else (HttpResponseRedirect (url_with_pk "course_detail" pk),
                    Some (LevelSuccess,
                          "Вы успешно записались на курс " +:+ dquote
                            +:+ course_title pk +:+ dquote +:+ "!"),
                    set_enrollments db
                      (<[(uid, pk) := {| Enrollment.completed := false |}]>
                         (enrollments db)))
          end
      | OtherMethod =>
          (HttpResponseRedirect (url_with_pk "course_detail" pk), None, db)
      end
  end.

(** The queryset that [EnrollmentForm.__init__] gives the course field:
    published courses the user is not enrolled in. *)
Definition EnrollmentForm_queryset (db : DB) (uid : nat) : list (nat * Course.t) :=
  List.filter
    (fun row : nat * Course.t =>
       Course.is_published row.2 && negb (is_enrolled db uid row.1))
    (map_to_list (courses db)).

Inductive FormError :=
| FieldRequired
| InvalidChoice
| ValidationError (text : string).

(** Validation of [EnrollmentForm]: the required model choice field admits
    the keys of its queryset, then [EnrollmentForm.clean] runs. *)
Definition EnrollmentForm_clean (db : DB) (uid : nat) (course : option nat)
    : FormError + nat :=
  match course with
  | None => inl FieldRequired
  | Some pk =>
      if negb (bool_decide (pk ∈ (EnrollmentForm_queryset db uid).*1))
      then inl InvalidChoice
      else if is_enrolled db uid pk
      then inl (ValidationError "Вы уже записаны на этот курс!")
      else inr pk
  end.

(** A POST to [EnrollView]: an invalid form is shown again with its error
    and nothing is written; a valid one is saved for the requesting user
    ([EnrollmentForm.save], [EnrollView.form_valid]) and answered with the
    redirect to the course. *)
Definition EnrollView_post (course_title : nat -> string) (uid : nat)
    (course : option nat) (db : DB)
    : (FormError + HttpResponse) * option Notice * DB :=
  match EnrollmentForm_clean db uid course with
  | inl e => (inl e, None, db)
  | inr pk =>
      (inr (HttpResponseRedirect (url_with_pk "course_detail" pk)),
       Some (LevelSuccess,
             "Вы успешно записались на курс " +:+ dquote
               +:+ course_title pk +:+ dquote +:+ "!"),
       set_enrollments db
         (<[(uid, pk) := {| Enrollment.completed := false |}]> (enrollments db)))
  end.

(** ** Pages that show progress *)

(** The comparison of [order_by('order')]. *)
Definition order_le (a b : nat * Lesson.t) : Prop :=
  Lesson.order a.2 <= Lesson.order b.2.

#[global] Instance order_le_dec a b : Decision (order_le a b) :=
  decide (Lesson.order a.2 <= Lesson.order b.2).

(** [module.lessons.all().order_by('order')]. Within a module the order
    numbers are unique ([unique_together]), so the order of the rows is
    determined. *)
Definition module_lessons (db : DB) (module_pk : nat) : list (nat * Lesson.t) :=
  merge_sort order_le
    (List.filter
       (fun row : nat * Lesson.t => Nat.eqb (Lesson.module row.2) module_pk)
       (map_to_list (lessons db))).

(** What a page is rendered from, or the failure that replaces it. *)
Inductive Page (A : Type) :=
| PageOk (context : A)
| PageNotFound
| PageError.

Arguments PageOk {A} context.
Arguments PageNotFound {A}.
Arguments PageError {A}.

(** The dictionaries with a count of completed lessons, a total and a
    percentage, and the one with the state of a single lesson. *)
Record Rollup := { rollup_completed : nat; rollup_total : nat; rollup_percentage : Z }.

Record LessonState := { state_completed : bool; state_completed_at : option datetime }.

(** [progress.completed if progress else False] and
    [progress.completed_at if progress else None] for the row found by
    [Progress.objects.filter(user=u, lesson=l).first()]. *)
Definition lesson_state (db : DB) (uid lesson_pk : nat) : LessonState :=
  match progress db !! (uid, lesson_pk) with
  | Some p => {| state_completed := Progress.completed p;
                 state_completed_at := Progress.completed_at p |}
  | None => {| state_completed := false; state_completed_at := None |}
  end.

(** The part of the context of [ModuleDetailView] that is about lessons
    and progress. *)
Record ModuleDetailContext := {
  md_lessons : list (nat * Lesson.t);
  md_user_progress : option Rollup;
  lessons_with_progress : option (list (nat * LessonState))
}.

(** [ModuleDetailView]: [get_object] and [get_context_data]. *)
Definition ModuleDetailView_get (user : User) (course_pk module_pk : nat)
    (db : DB) : Page ModuleDetailContext :=
  match modules db !! module_pk with
  | None => PageNotFound
  | Some module =>
      if negb (Nat.eqb (CourseModule.course module) course_pk) then PageNotFound
      else
        let lessons := module_lessons db module_pk in
        let plain := {| md_lessons := lessons; md_user_progress := None;
                        lessons_with_progress := None |} in
        match user with
        | AnonymousUser => PageOk plain
        | AuthenticatedUser uid =>
            if is_enrolled db uid (CourseModule.course module)
            then
              let completed_lessons :=
                count_completed db uid (in_module db module_pk) in
              let total_lessons := length lessons in
              match percentage completed_lessons total_lessons with
              | Some progress_percentage =>
                  PageOk
                    {| md_lessons := lessons;
                       md_user_progress :=
                         Some {| rollup_completed := completed_lessons;
                                 rollup_total := total_lessons;
                                 rollup_percentage := progress_percentage |};
                       lessons_with_progress :=
                         Some (List.map
                                 (fun row : nat * Lesson.t =>
                                    (row.1, lesson_state db uid row.1))
                                 lessons) |}
              | None => PageError
              end
            else PageOk plain
        end
  end.

(** The part of the context of [LessonDetailView] that is about
    navigation and progress. *)
Record LessonDetailContext := {
  ld_course : nat;
  ld_module : nat;
  previous_lesson : option nat;
  next_lesson : option nat;
  ld_user_progress : option LessonState;
  ld_module_progress : option Rollup;
  ld_course_progress : option Rollup
}.

(** [lessons.index(lesson)] on the keys of the rows. *)
Definition lesson_index (lesson_pk : nat) (rows : list (nat * Lesson.t)) : option nat :=
  fst <$> list_find (fun row : nat * Lesson.t => row.1 = lesson_pk) rows.

(** [LessonDetailView]: [get_object] and [get_context_data]. *)
Definition LessonDetailView_get (user : User) (course_pk module_pk lesson_pk : nat)
    (db : DB) : Page LessonDetailContext :=
  match lessons db !! lesson_pk with
  | None => PageNotFound
  | Some lesson =>
  if negb (Nat.eqb (Lesson.module lesson) module_pk) then PageNotFound else
  match module_course db module_pk with
  | None => PageNotFound
  | Some course =>
  if negb (Nat.eqb course course_pk) then PageNotFound else
  let rows := module_lessons db module_pk in
  match lesson_index lesson_pk rows with
  | None => PageError
  | Some current_index =>
  let previous :=
    if 0 <? current_index then fst <$> rows !! (current_index - 1) else None in
  let next :=
    if current_index <? length rows - 1
    then fst <$> rows !! (current_index + 1) else None in
  let plain := {| ld_course := course; ld_module := module_pk;
                  previous_lesson := previous; next_lesson := next;
                  ld_user_progress := None; ld_module_progress := None;
                  ld_course_progress := None |} in
  match user with
  | AnonymousUser => PageOk plain
  | AuthenticatedUser uid =>
      if is_enrolled db uid course
      then
        let module_completed := count_completed db uid (in_module db module_pk) in
        let module_total := count_lessons db (in_module db module_pk) in
        let course_completed := count_completed db uid (in_course db course) in
        let course_total := count_lessons db (in_course db course) in
        match percentage module_completed module_total,
              percentage course_completed course_total with
        | Some module_progress, Some course_progress =>
            PageOk
              {| ld_course := course; ld_module := module_pk;
                 previous_lesson := previous; next_lesson := next;
                 ld_user_progress := Some (lesson_state db uid lesson_pk);
                 ld_module_progress :=
                   Some {| rollup_completed := module_completed;
                           rollup_total := module_total;
                           rollup_percentage := module_progress |};
                 ld_course_progress :=
                   Some {| rollup_completed := course_completed;
                           rollup_total := course_total;
                           rollup_percentage := course_progress |} |}
        | _, _ => PageError
        end
      else PageOk plain
  end end end end.

(** ** The user profile *)

Module Date.

(** A [datetime.date]. *)
Record t := { year : Z; month : Z; day : Z }.

(** [a < b] on dates: the lexicographic order of year, month and day. *)
Definition ltb (a b : t) : bool :=
  (year a <? year b)%Z
  || ((year a =? year b)%Z
      && ((month a <? month b)%Z
          || ((month a =? month b)%Z && (day a <? day b)%Z))).

End Date.

(** [(a1, a2) < (b1, b2)] on tuples of integers. *)
Definition pair_ltb (a b : Z * Z) : bool :=
  (a.1 <? b.1)%Z || ((a.1 =? b.1)%Z && (a.2 <? b.2)%Z).

(** The expression
    [today.year - birth.year - ((today.month, today.day) < (birth.month, birth.day))]
    of [UserProfile.age] and [ProfileForm.clean_birth_date]. *)
Definition years_since (today birth : Date.t) : Z :=
  (Date.year today - Date.year birth
   - (if pair_ltb (Date.month today, Date.day today)
                  (Date.month birth, Date.day birth)
      then 1 else 0))%Z.

(** [UserProfile.age], with [date.today()] as [today]. *)
Definition UserProfile_age (today : Date.t) (birth_date : option Date.t) : option Z :=
  match birth_date with
  | Some birth => Some (years_since today birth)
  | None => None
  end.

(** [UserProfile.is_adult] *)
Definition UserProfile_is_adult (today : Date.t) (birth_date : option Date.t) : bool :=
  match UserProfile_age today birth_date with
  | Some age => (18 <=? age)%Z
  | None => false
  end.

(** [UserProfile.clean]: the message of the [ValidationError] it raises,
    [None] when it returns. *)
Definition UserProfile_clean (today : Date.t) (birth_date : option Date.t)
    : option string :=
  match birth_date with
  | Some birth =>
      if Date.ltb today birth
      then Some "Дата рождения не может быть в будущем!"%string
      else
        match UserProfile_age today birth_date with
        | Some age =>
            if (age <? 16)%Z
            then Some "Вам должно быть не менее 16 лет!"%string
            else None
        | None => None
        end
  | None => None
  end.

(** [ProfileForm.clean_birth_date]: the error raised or the value
    returned. *)
Definition ProfileForm_clean_birth_date (today : Date.t)
    (birth_date : option Date.t) : FormError + option Date.t :=
  match birth_date with
  | Some birth =>
      if Date.ltb today birth
      then inl (ValidationError "Дата рождения не может быть в будущем!")
      else if (years_since today birth <? 16)%Z
      then inl (ValidationError "Вам должно быть не менее 16 лет!")
      else inr birth_date
  | None => inr birth_date
  end.

(** The date [years] years after [d], as a triple. *)
Definition add_years (years : Z) (d : Date.t) : Date.t :=
  {| Date.year := Date.year d + years; Date.month := Date.month d;
     Date.day := Date.day d |}.

(** ** The phone number *)

(** A Python string as the list of its code points. [isspace] and
    [isdigit] are [str.isspace] and [str.isdigit] on one character. *)
Definition plus_sign : N := 43.

Fixpoint lstrip (isspace : N -> bool) (s : list N) : list N :=
  match s with
  | [] => []
  | c :: s' => if isspace c then lstrip isspace s' else s
  end.

(** [s.strip()] *)
Definition str_strip (isspace : N -> bool) (s : list N) : list N :=
  rev (lstrip isspace (rev (lstrip isspace s))).

(** [ProfileForm.clean_phone] on [cleaned_data.get('phone')]. *)
Definition ProfileForm_clean_phone (isspace isdigit : N -> bool)
    (phone : option (list N)) : FormError + option (list N) :=
  match phone with
  | None | Some [] => inr phone
  | Some text =>
      let stripped := str_strip isspace text in
      let cleaned_phone :=
        match stripped with
        | c :: rest =>
            if N.eqb c plus_sign
            then plus_sign :: List.filter isdigit rest
            else List.filter isdigit stripped
        | [] => List.filter isdigit stripped
        end in
      if length cleaned_phone <? 10
      then inl (ValidationError "Номер телефона слишком короткий")
      else if 15 <? length cleaned_phone
      then inl (ValidationError "Номер телефона слишком длинный")
      else inr (Some cleaned_phone)
  end.

(** ASCII instances of the two character tests, for examples. *)
Definition ascii_isspace (c : N) : bool :=
  (N.eqb c 32 || (N.leb 9 c && N.leb c 13) || (N.leb 28 c && N.leb c 31))%N.

Definition ascii_isdigit (c : N) : bool := (N.leb 48 c && N.leb c 57)%N.

(** ** Properties of the additional views *)

(** Carts that the cart views and the checkout produce from the empty
    cart of a new session. *)
Inductive cart_reachable : list nat -> Prop :=
| cart_new : cart_reachable []
| cart_add course_title pk cart db :
    cart_reachable cart ->
    cart_reachable (AddToCartView_post course_title pk cart db).1.2
| cart_remove pk cart :
    cart_reachable cart ->
    cart_reachable (RemoveFromCartView_post pk cart).1.2
| cart_checkout uid session db :
    cart_reachable (cart session) ->
    cart_reachable (cart (CheckoutView_post uid session db).1.2).

(** The neighbours that [LessonDetailView.get_context_data] takes from the
    list of lessons at position [i]. *)
Definition neighbour_before (rows : list (nat * Lesson.t)) (i : nat) : option nat :=
  if 0 <? i then fst <$> rows !! (i - 1) else None.

Definition neighbour_after (rows : list (nat * Lesson.t)) (i : nat) : option nat :=
  if i <? length rows - 1 then fst <$> rows !! (i + 1) else None.

(** Every order item refers to an order of the order table. *)
Definition items_reference_orders (db : DB) : Prop :=
  forall item, item ∈ order_items db ->
    1 <= OrderItem.order item <= length (orders db).

(** [a <= b] on dates. *)
Definition date_le (a b : Date.t) : Prop := Date.ltb b a = false.

(** A cleaned phone number: an optional plus sign, then digits. *)
Definition phone_shape (isdigit : N -> bool) (s : list N) : Prop :=
  Forall (fun c => isdigit c = true) s \/
  exists rest, s = plus_sign :: rest /\ Forall (fun c => isdigit c = true) rest.

(** The check behind the bounds on the roll-up percentage: for [completed]
    of [total] lessons the computed value is at most one below the exact
    floor, never above it, never negative, and 100 exactly when all
    lessons are completed. *)
Definition percentage_within_one (completed total : nat) : bool :=
  match percentage completed total with
  | Some p =>
      (floor_percentage completed total - 1 <=? p)%Z
      && (p <=? floor_percentage completed total)%Z
      && (0 <=? p)%Z
      && Bool.eqb (p =? 100)%Z (Nat.eqb completed total)
  | None => false
  end.

(** [ModuleListView.get_context_data]: the course of the URL, or 404, and
    [sum(module.lessons.count() for module in modules)] over the modules
    of the course. The sum does not depend on the order of the modules;
    the total of the durations is left out. *)
Definition ModuleListView_total_lessons (course_pk : nat) (db : DB) : Page nat :=
  match courses db !! course_pk with
  | None => PageNotFound
  | Some _ =>
      PageOk
        (fold_left Nat.add
           (List.map
              (fun row : nat * CourseModule.t =>
                 count_lessons db (in_module db row.1))
              (List.filter
                 (fun row : nat * CourseModule.t =>
                    Nat.eqb (CourseModule.course row.2) course_pk)
                 (map_to_list (modules db))))
           0)
  end.
(** ** Roll-up percentage *)

Lemma percentage_no_lessons completed : percentage completed 0 = Some 0%Z.
Proof. reflexivity. Qed.

Lemma percentage_one_of_three : percentage 1 3 = Some 33%Z.
Proof. vm_compute. reflexivity. Qed.

Lemma percentage_three_of_four : percentage 3 4 = Some 75%Z.
Proof. vm_compute. reflexivity. Qed.

(** Up to 49 lessons the binary64 computation and the floor agree. *)
Lemma percentage_floor_below_50 completed total :
  (total < 50)%nat -> (completed <= total)%nat ->
  percentage completed total = Some (floor_percentage completed total).
Proof.
  intros Ht Hc.
  assert (Hall :
    forallb
      (fun t =>
         forallb
           (fun c => bool_decide (percentage c t = Some (floor_percentage c t)))
           (seq 0 (S t)))
      (seq 0 50) = true) by (vm_compute; reflexivity).
  rewrite forallb_forall in Hall.
  specialize (Hall total). rewrite in_seq in Hall.
  specialize (Hall ltac:(lia)).
  rewrite forallb_forall in Hall.
  specialize (Hall completed). rewrite in_seq in Hall.
  specialize (Hall ltac:(lia)).
  by apply bool_decide_eq_true in Hall.
Qed.

(** C1: the roll-up percentage is computed in binary64, not in integers.
    With 29 of 50 lessons completed the quotient 29/50 rounds below 0.58,
    the product with 100 stays below 58, and [int] truncates it to 57,
    while floor(100 * 29 / 50) is 58. The response of the progress endpoint
    carries the same 57 for the module and for the course. *)
Theorem percentage_29_of_50_truncates_low :
  percentage 29 50 = Some 57%Z /\
  floor_percentage 29 50 = 58%Z /\
  (let r := (MarkLessonCompletedView_post (mark 7 29 "true") 2000%Z
               (single_module_db 50 28)).1 in
   module_total <$> payload_of r = Some 50 /\
   module_completed <$> payload_of r = Some 29 /\
   module_progress <$> payload_of r = Some 57%Z /\
   course_progress <$> payload_of r = Some 57%Z).
Proof. vm_compute. repeat split; reflexivity. Qed.

(** ** The progress row and its timestamp *)

Lemma save_stamped now p : stamped_iff_completed (Progress.save now p).
Proof.
  unfold stamped_iff_completed.
  destruct p as [[] [t|]]; cbn; split; intros H;
    try reflexivity; try discriminate; eauto; by destruct H.
Qed.

Lemma save_completed now p :
  Progress.completed (Progress.save now p) = Progress.completed p.
Proof. by destruct p as [[] [t|]]. Qed.

(** Saving a completed row keeps a timestamp that is already there. *)
Lemma save_keeps_timestamp now p t :
  Progress.completed_at p = Some t -> Progress.completed p = true ->
  Progress.save now p = p.
Proof. destruct p as [[] [t'|]]; cbn; intros; by simplify_eq. Qed.

Lemma save_not_completed now at_ :
  Progress.save now {| Progress.completed := false; Progress.completed_at := at_ |}
  = {| Progress.completed := false; Progress.completed_at := None |}.
Proof. by destruct at_. Qed.

Lemma toggle_lookup now uid l b table :
  (toggle now uid l b table).2 !! (uid, l) = Some (toggle now uid l b table).1.
Proof. unfold toggle. destruct (table !! (uid, l)); cbn; apply lookup_insert_eq. Qed.

Lemma toggle_lookup_ne now uid l b table k :
  k <> (uid, l) -> (toggle now uid l b table).2 !! k = table !! k.
Proof.
  intros Hk. unfold toggle.
  destruct (table !! (uid, l)); cbn; by rewrite lookup_insert_ne.
Qed.

Lemma toggle_stamped now uid l b table :
  stamped_iff_completed (toggle now uid l b table).1.
Proof. unfold toggle. destruct (table !! (uid, l)); cbn; apply save_stamped. Qed.

Lemma toggle_completed now uid l b table :
  Progress.completed (toggle now uid l b table).1 = b.
Proof. unfold toggle. destruct (table !! (uid, l)); cbn; by rewrite save_completed. Qed.

(** A row that is completed and stamped is left alone by a further
    toggle to true, and so is the table. *)
Lemma toggle_true_again now uid l table p :
  table !! (uid, l) = Some p ->
  Progress.completed p = true -> is_Some (Progress.completed_at p) ->
  toggle now uid l true table = (p, table).
Proof.
  intros Hp Hc [t Ht]. unfold toggle. rewrite Hp.
  destruct p as [c at_]; cbn in *; subst.
  by rewrite insert_id.
Qed.

(** ** The view and the store *)

(** Whatever the request, the handler either leaves the database alone or
    replaces the progress table by the result of one toggle. *)
Lemma post_store_cases request now db :
  (MarkLessonCompletedView_post request now db).2 = db \/
  exists uid l b,
    (MarkLessonCompletedView_post request now db).2
    = set_progress db (toggle now uid l b (progress db)).2.
Proof.
  unfold MarkLessonCompletedView_post.
  destruct (POST_lesson_id request) as [l|]; [|by left].
  destruct (lessons db !! l) as [lesson|]; [|by left].
  destruct (user request) as [|uid]; [by left|].
  destruct (module_course db (Lesson.module lesson)) as [c|]; [|by left].
  destruct (negb (is_enrolled db uid c)); [by left|].
  right. exists uid, l, (bool_decide (POST_completed request = Some "true"%string)).
  destruct (toggle _ _ _ _ _) as [p table]; cbn.
  by repeat case_match.
Qed.

(** The enrolled user's request for an existing lesson always reaches the
    toggle. *)
Lemma post_store_enrolled db uid l c flag now :
  lesson_course db l = Some c -> is_enrolled db uid c = true ->
  (MarkLessonCompletedView_post
     {| user := AuthenticatedUser uid; POST_lesson_id := Some l;
        POST_completed := flag |} now db).2
  = set_progress db
      (toggle now uid l (bool_decide (flag = Some "true"%string)) (progress db)).2.
Proof.
  intros Hc He. unfold MarkLessonCompletedView_post, lesson_course in *. cbn.
  destruct (lessons db !! l) as [lesson|]; [|done]. cbn in Hc.
  rewrite Hc, He. cbn.
  destruct (toggle _ _ _ _ _) as [p table]; cbn.
  by repeat case_match.
Qed.

Lemma dispatch_authenticated request now db :
  is_authenticated (user request) = true ->
  MarkLessonCompletedView_dispatch request now db
  = MarkLessonCompletedView_post request now db.
Proof. unfold MarkLessonCompletedView_dispatch. by intros ->. Qed.

Lemma dispatch_store_cases request now db :
  (MarkLessonCompletedView_dispatch request now db).2 = db \/
  exists uid l b,
    (MarkLessonCompletedView_dispatch request now db).2
    = set_progress db (toggle now uid l b (progress db)).2.
Proof.
  unfold MarkLessonCompletedView_dispatch.
  destruct (is_authenticated _); [apply post_store_cases | by left].
Qed.

Lemma dispatch_store_enrolled db uid l c flag now :
  lesson_course db l = Some c -> is_enrolled db uid c = true ->
  (MarkLessonCompletedView_dispatch
     {| user := AuthenticatedUser uid; POST_lesson_id := Some l;
        POST_completed := flag |} now db).2
  = set_progress db
      (toggle now uid l (bool_decide (flag = Some "true"%string)) (progress db)).2.
Proof.
  intros Hc He. rewrite dispatch_authenticated by done.
  by apply post_store_enrolled with (c := c).
Qed.

(** The first of two calls in a row: a toggle to true by the enrolled
    user. *)
Lemma dispatch_mark_true db uid l c now :
  lesson_course db l = Some c -> is_enrolled db uid c = true ->
  (MarkLessonCompletedView_dispatch (mark uid l "true") now db).2
  = set_progress db (toggle now uid l true (progress db)).2.
Proof.
  intros Hc He. unfold mark.
  by rewrite (dispatch_store_enrolled db uid l c (Some "true"%string) now Hc He).
Qed.

(** ** Counting lessons *)











(** ** Toggling completion *)

Lemma toggle_all_stamped now uid l b table :
  all_stamped table -> all_stamped (toggle now uid l b table).2.
Proof.
  intros Hall k p. destruct (decide (k = (uid, l))) as [->|Hk].
  - rewrite toggle_lookup. intros [= <-]. apply toggle_stamped.
  - rewrite toggle_lookup_ne by done. apply Hall.
Qed.

Lemma reachable_all_stamped db : reachable db -> all_stamped (progress db).
Proof.
  induction 1 as [db Hempty|db request now _ IH|db db' _ IH Hsub].
  - intros k p. by rewrite Hempty, lookup_empty.
  - destruct (dispatch_store_cases request now db) as [->|(uid & l & b & ->)];
      [done|]. cbn. by apply toggle_all_stamped.
  - intros k p Hk. apply (IH k). by eapply lookup_weaken.
Qed.

Lemma toggle_create now uid l b table :
  table !! (uid, l) = None ->
  (toggle now uid l b table).1
  = {| Progress.completed := b;
       Progress.completed_at := if b then Some now else None |}.
Proof. intros H. unfold toggle. rewrite H. by destruct b. Qed.

Lemma toggle_update now uid l b table q :
  table !! (uid, l) = Some q ->
  (toggle now uid l b table).1
  = {| Progress.completed := b;
       Progress.completed_at :=
         if b then Some (default now (Progress.completed_at q)) else None |}.
Proof.
  intros H. unfold toggle. rewrite H.
  by destruct b, (Progress.completed_at q).
Qed.

(** C2: for an enrolled user and an existing lesson, a second
    toggle to true right after a first one changes nothing: the database
    after the second call is the database after the first, so the row
    carries the timestamp of the first call. A timestamp that was there
    before the first call is kept by it as well. *)
Theorem toggle_true_twice_same_completed_at db uid l c now1 now2 :
  lesson_course db l = Some c ->
  is_enrolled db uid c = true ->
  let db1 := (MarkLessonCompletedView_dispatch (mark uid l "true") now1 db).2 in
  let db2 := (MarkLessonCompletedView_dispatch (mark uid l "true") now2 db1).2 in
  (exists t, progress db1 !! (uid, l)
             = Some {| Progress.completed := true; Progress.completed_at := Some t |} /\
             progress db2 !! (uid, l)
             = Some {| Progress.completed := true; Progress.completed_at := Some t |}) /\
  db2 = db1 /\
  (progress db !! (uid, l) = None ->
   Progress.completed_at <$> progress db2 !! (uid, l) = Some (Some now1)) /\
  (forall p0 t0, progress db !! (uid, l) = Some p0 ->
                 Progress.completed_at p0 = Some t0 ->
                 Progress.completed_at <$> progress db2 !! (uid, l) = Some (Some t0)).
Proof.
  intros Hc He db1 db2.
  assert (Hdb1 : db1 = set_progress db (toggle now1 uid l true (progress db)).2).
  { by apply dispatch_mark_true with (c := c). }
  set (p := (toggle now1 uid l true (progress db)).1).
  assert (Hp : progress db1 !! (uid, l) = Some p).
  { rewrite Hdb1. cbn. apply toggle_lookup. }
  assert (Hpc : Progress.completed p = true) by apply toggle_completed.
  assert (Hps : is_Some (Progress.completed_at p)).
  { apply (toggle_stamped now1 uid l true (progress db)), Hpc. }
  assert (Hdb2 : db2 = db1).
  { unfold db2.
    rewrite (dispatch_mark_true db1 uid l c now2);
      [|by rewrite Hdb1|by rewrite Hdb1].
    rewrite (toggle_true_again now2 uid l (progress db1) p Hp Hpc Hps). cbn.
    rewrite Hdb1. reflexivity. }
  rewrite Hdb2. repeat split.
  - destruct Hps as [t Ht]. exists t. rewrite Hp.
    destruct p as [pc pa]; cbn in *; subst; done.
  - intros Hnone. rewrite Hp. cbn. unfold p.
    by rewrite (toggle_create _ _ _ _ _ Hnone).
  - intros p0 t0 Hp0 Ht0. rewrite Hp. cbn. unfold p.
    by rewrite (toggle_update _ _ _ _ _ _ Hp0), Ht0.
Qed.

Lemma toggle_true_twice_same_completed_at_witness :
  let db := single_module_db 3 0 in
  let db1 := (MarkLessonCompletedView_dispatch (mark 7 1 "true") 2000%Z db).2 in
  let db2 := (MarkLessonCompletedView_dispatch (mark 7 1 "true") 3000%Z db1).2 in
  lesson_course db 1 = Some 1 /\ is_enrolled db 7 1 = true /\
  db2 = db1 /\
  Progress.completed_at <$> progress db2 !! (7, 1) = Some (Some 2000%Z).
Proof.
  intros db db1 db2.
  assert (Hc : lesson_course db 1 = Some 1) by (vm_compute; reflexivity).
  assert (He : is_enrolled db 7 1 = true) by (vm_compute; reflexivity).
  destruct (toggle_true_twice_same_completed_at db 7 1 1 2000%Z 3000%Z Hc He)
    as (_ & Heq & Hnew & _).
  split; [exact Hc|]. split; [exact He|]. split; [exact Heq|].
  apply Hnew. vm_compute. reflexivity.
Defined.

(** C3: in every reachable database each progress row has
    [completed_at] set exactly when [completed] is true. The toggle keeps
    it so on both of its paths: a row it creates is stamped with the
    current time exactly when it is created completed, and a row it
    updates keeps or receives a timestamp when set to completed and loses
    it when set to not completed. *)
Theorem completed_at_iff_completed :
  (forall db, reachable db ->
     forall k p, progress db !! k = Some p ->
       (is_Some (Progress.completed_at p) <-> Progress.completed p = true)) /\
  (forall now uid l b table,
     let r := toggle now uid l b table in
     r.2 !! (uid, l) = Some r.1 /\
     stamped_iff_completed r.1 /\
     (table !! (uid, l) = None ->
      r.1 = {| Progress.completed := b;
               Progress.completed_at := if b then Some now else None |}) /\
     (forall q, table !! (uid, l) = Some q ->
      r.1 = {| Progress.completed := b;
               Progress.completed_at :=
                 if b then Some (default now (Progress.completed_at q))
                 else None |})).
Proof.
  split.
  - intros db Hr k p Hk. exact (reachable_all_stamped db Hr k p Hk).
  - intros now uid l b table r. unfold r. repeat split.
    + apply toggle_lookup.
    + apply (toggle_stamped now uid l b table).
    + apply (toggle_stamped now uid l b table).
    + apply toggle_create.
    + intros q. apply toggle_update.
Qed.

Lemma completed_at_iff_completed_witness :
  let db := (MarkLessonCompletedView_dispatch (mark 7 2 "true") 2000%Z
               (single_module_db 3 0)).2 in
  let p := {| Progress.completed := true; Progress.completed_at := Some 2000%Z |} in
  reachable db /\ progress db !! (7, 2) = Some p /\
  (is_Some (Progress.completed_at p) <-> Progress.completed p = true).
Proof.
  intros db p.
  assert (Hr : reachable db).
  { apply reachable_toggle, reachable_empty. reflexivity. }
  assert (Hk : progress db !! (7, 2) = Some p) by (vm_compute; reflexivity).
  split; [exact Hr|]. split; [exact Hk|].
  exact (proj1 completed_at_iff_completed db Hr (7, 2) p Hk).
Defined.

(** C4: for an enrolled user and an existing lesson, a toggle to
    true followed by a toggle with any other value of [completed] leaves
    the row not completed and without a timestamp. *)
Theorem toggle_true_then_false_clears db uid l c flag now1 now2 :
  lesson_course db l = Some c ->
  is_enrolled db uid c = true ->
  flag <> Some "true"%string ->
  let db1 := (MarkLessonCompletedView_dispatch (mark uid l "true") now1 db).2 in
  let db2 := (MarkLessonCompletedView_dispatch
                {| user := AuthenticatedUser uid; POST_lesson_id := Some l;
                   POST_completed := flag |} now2 db1).2 in
  (exists t, progress db1 !! (uid, l)
             = Some {| Progress.completed := true; Progress.completed_at := Some t |}) /\
  progress db2 !! (uid, l)
  = Some {| Progress.completed := false; Progress.completed_at := None |}.
Proof.
  intros Hc He Hflag db1 db2.
  assert (Hdb1 : db1 = set_progress db (toggle now1 uid l true (progress db)).2).
  { by apply dispatch_mark_true with (c := c). }
  assert (Hp : progress db1 !! (uid, l)
               = Some (toggle now1 uid l true (progress db)).1).
  { rewrite Hdb1. cbn. apply toggle_lookup. }
  split.
  - rewrite Hp.
    destruct (progress db !! (uid, l)) as [q|] eqn:Hq.
    + rewrite (toggle_update _ _ _ _ _ _ Hq). eauto.
    + rewrite (toggle_create _ _ _ _ _ Hq). eauto.
  - unfold db2.
    rewrite (dispatch_store_enrolled db1 uid l c flag now2);
      [|by rewrite Hdb1|by rewrite Hdb1].
    rewrite (bool_decide_eq_false_2 _ Hflag). cbn.
    rewrite toggle_lookup. f_equal.
    by rewrite (toggle_update _ _ _ _ _ _ Hp).
Qed.

Lemma toggle_true_then_false_clears_witness :
  let db := single_module_db 3 0 in
  let db1 := (MarkLessonCompletedView_dispatch (mark 7 1 "true") 2000%Z db).2 in
  let db2 := (MarkLessonCompletedView_dispatch (mark 7 1 "false") 3000%Z db1).2 in
  lesson_course db 1 = Some 1 /\ is_enrolled db 7 1 = true /\
  Some "false"%string <> Some "true"%string /\
  progress db2 !! (7, 1)
  = Some {| Progress.completed := false; Progress.completed_at := None |}.
Proof.
  intros db db1 db2.
  assert (Hc : lesson_course db 1 = Some 1) by (vm_compute; reflexivity).
  assert (He : is_enrolled db 7 1 = true) by (vm_compute; reflexivity).
  assert (Hf : Some "false"%string <> Some "true"%string) by discriminate.
  split; [exact Hc|]. split; [exact He|]. split; [exact Hf|].
  exact (proj2 (toggle_true_then_false_clears db 7 1 1 (Some "false"%string)
                  2000%Z 3000%Z Hc He Hf)).
Defined.

(** C5: an authenticated user without an enrollment for the course
    of an existing lesson is answered 403 with the not-enrolled error, and
    the database, the progress table included, is returned as it was. *)
Theorem not_enrolled_is_forbidden db uid l c flag now :
  lesson_course db l = Some c ->
  enrollments db !! (uid, c) = None ->
  MarkLessonCompletedView_dispatch
    {| user := AuthenticatedUser uid; POST_lesson_id := Some l;
       POST_completed := flag |} now db
  = (JsonResponse 403 (JsonError "Вы не записаны на этот курс"), db).
Proof.
  intros Hc He. rewrite dispatch_authenticated by done.
  unfold MarkLessonCompletedView_post, lesson_course in *. cbn.
  destruct (lessons db !! l) as [lesson|]; [|done]. cbn in Hc.
  rewrite Hc. unfold is_enrolled. rewrite He. reflexivity.
Qed.

Lemma not_enrolled_is_forbidden_witness :
  let db := single_module_db 3 0 in
  lesson_course db 1 = Some 1 /\ enrollments db !! (8, 1) = None /\
  MarkLessonCompletedView_dispatch (mark 8 1 "true") 2000%Z db
  = (JsonResponse 403 (JsonError "Вы не записаны на этот курс"), db).
Proof.
  intros db.
  assert (Hc : lesson_course db 1 = Some 1) by (vm_compute; reflexivity).
  assert (He : enrollments db !! (8, 1) = None) by (vm_compute; reflexivity).
  split; [exact Hc|]. split; [exact He|].
  exact (not_enrolled_is_forbidden db 8 1 1 (Some "true"%string) 2000%Z Hc He).
Defined.

(** C6: a lesson id that references no lesson is answered 404
    only when it is a number. For a request with a non-empty [lesson_id]
    the handler returns the database as it was in every case below, but
    when Python's [int] rejects the id, as it does for the id abc, the
    conversion inside [get_object_or_404] raises and the answer is the
    server error instead of 404; a numeric id without a lesson row is
    answered 404. *)
Theorem lesson_id_without_lesson int_of_str request lesson_id now db :
  raw_lesson_id request = Some lesson_id ->
  lesson_id <> EmptyString ->
  (int_of_str lesson_id = None ->
   MarkLessonCompletedView_post_raw int_of_str request now db
   = (HttpResponseServerError, db)) /\
  (forall pk,
     int_of_str lesson_id = Some pk ->
     (pk < 0)%Z \/ lessons db !! Z.to_nat pk = None ->
     MarkLessonCompletedView_post_raw int_of_str request now db = (Http404, db)) /\
  (is_authenticated (raw_user request) = true ->
   MarkLessonCompletedView_dispatch_raw int_of_str request now db
   = MarkLessonCompletedView_post_raw int_of_str request now db).
Proof.
  intros Hid Hne.
  assert (Hlen : Nat.eqb (String.length lesson_id) 0 = false).
  { destruct lesson_id; [done | reflexivity]. }
  unfold MarkLessonCompletedView_dispatch_raw, MarkLessonCompletedView_post_raw.
  rewrite Hid, Hlen. split; [|split].
  - by intros ->.
  - intros pk -> Hpk. destruct (Z.ltb_spec pk 0) as [|Hge]; [done|].
    destruct Hpk as [?|Hnone]; [lia|].
    unfold MarkLessonCompletedView_post. cbn. by rewrite Hnone.
  - by intros ->.
Qed.

Lemma lesson_id_without_lesson_witness :
  let db := single_module_db 3 0 in
  let request := mark_raw (AuthenticatedUser 7) "abc" "true" in
  raw_lesson_id request = Some "abc"%string /\
  "abc"%string <> EmptyString /\
  ascii_int_of_str "abc" = None /\
  MarkLessonCompletedView_dispatch_raw ascii_int_of_str request 2000%Z db
  = (HttpResponseServerError, db) /\
  MarkLessonCompletedView_dispatch_raw ascii_int_of_str
    (mark_raw (AuthenticatedUser 7) "99" "true") 2000%Z db
  = (Http404, db).
Proof.
  intros db request.
  assert (Hid : raw_lesson_id request = Some "abc"%string) by reflexivity.
  assert (Hne : "abc"%string <> EmptyString) by discriminate.
  assert (Hint : ascii_int_of_str "abc" = None) by reflexivity.
  split; [exact Hid|]. split; [exact Hne|]. split; [exact Hint|].
  destruct (lesson_id_without_lesson ascii_int_of_str request "abc" 2000%Z db
              Hid Hne) as (Herror & _ & Hgate).
  split.
  - rewrite (Hgate eq_refl). exact (Herror Hint).
  - assert (Hne99 : "99"%string <> EmptyString) by discriminate.
    destruct (lesson_id_without_lesson ascii_int_of_str
                (mark_raw (AuthenticatedUser 7) "99" "true") "99" 2000%Z db
                eq_refl Hne99) as (_ & Hmissing & Hgate99).
    rewrite (Hgate99 eq_refl).
    apply (Hmissing 99%Z); [vm_compute; reflexivity|].
    right. vm_compute. reflexivity.
Defined.




(** ** Totals and the published flag *)





(** A module of three lessons with one unpublished lesson is reported with
    a total of three. *)
Example module_total_counts_unpublished :
  let db := republish (fun k _ => negb (Nat.eqb k 2)) (single_module_db 3 0) in
  count_lessons_flagged db (in_module db 1) false = 1 /\
  module_total <$> payload_of
    (MarkLessonCompletedView_post (mark 7 1 "true") 2000%Z db).1 = Some 3 /\
  module_progress <$> payload_of
    (MarkLessonCompletedView_post (mark 7 1 "true") 2000%Z db).1 = Some 33%Z.
Proof. vm_compute. repeat split; reflexivity. Qed.


(** ** Cart checkout *)

Lemma elem_of_get_cart_courses session db pk c :
  (pk, c) ∈ get_cart_courses session db <->
  pk ∈ cart session /\ courses db !! pk = Some c /\ Course.is_published c = true.
Proof.
  unfold get_cart_courses.
  rewrite list_elem_of_In, List.filter_In, <- list_elem_of_In.
  rewrite elem_of_map_to_list. cbn.
  rewrite andb_true_iff, bool_decide_eq_true. tauto.
Qed.


Lemma enroll_lookup uid pk db k :
  enrollments (enroll uid pk db) !! k
  = if decide (k = (uid, pk))
    then Some (default {| Enrollment.completed := false |} (enrollments db !! k))
    else enrollments db !! k.
Proof.
  unfold enroll. case_decide as Hk.
  - subst k. destruct (enrollments db !! (uid, pk)) eqn:He; cbn; [done|].
    by rewrite lookup_insert_eq.
  - destruct (enrollments db !! (uid, pk)); cbn; [done|].
    by rewrite lookup_insert_ne.
Qed.

Lemma enroll_frame uid pk db :
  let db' := enroll uid pk db in
  courses db' = courses db /\ modules db' = modules db /\
  lessons db' = lessons db /\ progress db' = progress db /\
  orders db' = orders db /\ order_items db' = order_items db.
Proof. unfold enroll. by destruct (enrollments db !! (uid, pk)). Qed.

(** What the loop over the cart courses does to the database. *)
Lemma checkout_loop uid order_pk rows db :
  let db' := fold_left (checkout_course uid order_pk) rows db in
  courses db' = courses db /\ modules db' = modules db /\
  lessons db' = lessons db /\ progress db' = progress db /\
  orders db' = orders db /\
  order_items db' = order_items db ++ List.map (line_item order_pk) rows /\
  forall k,
    enrollments db' !! k
    = if decide (k.1 = uid /\ k.2 ∈ rows.*1)
      then Some (default {| Enrollment.completed := false |} (enrollments db !! k))
      else enrollments db !! k.
Proof.
  revert db. induction rows as [|row rows IH]; intros db; cbn.
  - repeat split; [by rewrite app_nil_r|].
    intros k. case_decide as H; [|done]. destruct H as [_ H]. by inversion H.
  - specialize (IH (checkout_course uid order_pk db row)).
    cbn in IH. destruct IH as (Hc & Hm & Hl & Hp & Ho & Hi & He).
    unfold checkout_course in *.
    set (db0 := set_order_items db _) in *.
    destruct (enroll_frame uid row.1 db0) as (Hc' & Hm' & Hl' & Hp' & Ho' & Hi').
    rewrite Hc, Hm, Hl, Hp, Ho, Hi, Hc', Hm', Hl', Hp', Ho', Hi'. cbn.
    repeat split; [by rewrite <- app_assoc|].
    intros k. rewrite He, enroll_lookup. cbn.
    destruct k as [u c]. cbn.
    repeat case_decide; simplify_eq; cbn in *; try done.
    all: exfalso;
      repeat match goal with
             | H : context [_ ∈ _ :: _] |- _ => rewrite elem_of_cons in H
             end;
      intuition congruence.
Qed.

(** The checkout of a cart that has courses to read. *)
Lemma checkout_nonempty uid session db :
  get_cart_courses session db <> [] ->
  CheckoutView_post uid session db
  = (HttpResponseRedirect "orders_history",
     {| cart := [];
        messages :=
          messages session ++
            [MessageSuccess
               ("Заказ #" +:+ pretty (S (length (orders db))) +:+
                " успешно оформлен. Доступ к курсам выдан.")] |},
     fold_left (checkout_course uid (S (length (orders db))))
       (get_cart_courses session db)
       (set_orders db
          (orders db ++ [{| Order.user := uid; Order.status := "paid" |}]))).
Proof.
  intros Hne. unfold CheckoutView_post.
  by destruct (get_cart_courses session db).
Qed.

Lemma checkout_empty uid session db :
  get_cart_courses session db = [] ->
  CheckoutView_post uid session db
  = (HttpResponseRedirect "cart",
     {| cart := cart session;
        messages := messages session ++ [MessageWarning "Ваша корзина пуста."] |},
     db).
Proof. intros Hnil. unfold CheckoutView_post. by rewrite Hnil. Qed.




(** What the checkout of the sample cart writes: the paid course at its
    price, the free course at zero, nothing for the unpublished course 3
    and the unknown course 9. *)
Example checkout_sample :
  let db' := (CheckoutView_post 7 (session_with [1; 2; 3; 9]) shop_db).2 in
  List.map (fun i => (OrderItem.course i, OrderItem.price i)) (order_items db')
    ≡ₚ [(1, 99000%Z); (2, 0%Z)] /\
  enrollments db' !! (7, 1) = Some {| Enrollment.completed := false |} /\
  enrollments db' !! (7, 2) = Some {| Enrollment.completed := true |} /\
  enrollments db' !! (7, 3) = None /\
  enrollments db' !! (7, 9) = None.
Proof.
  vm_compute. split; [|by repeat split].
  first [reflexivity | apply perm_swap].
Qed.

(** C10: the checkout reads exactly the cart entries whose course
    exists and is published. A cart entry whose course is unpublished or
    missing gets no order item and its enrollment entry is left as it
    was. When no cart entry is a published course, the view answers with
    the redirect to the cart, queues the empty-cart warning, and returns
    the database and the cart as they were. *)
Theorem checkout_skips_unpublished uid session db :
  let rows := get_cart_courses session db in
  let result := CheckoutView_post uid session db in
  let db' := result.2 in
  (forall pk c,
     (pk, c) ∈ rows <->
     pk ∈ cart session /\ courses db !! pk = Some c /\
     Course.is_published c = true) /\
  (exists new_items,
     order_items db' = order_items db ++ new_items /\
     forall pk,
       Course.is_published <$> courses db !! pk <> Some true ->
       (forall item, item ∈ new_items -> OrderItem.course item <> pk) /\
       enrollments db' !! (uid, pk) = enrollments db !! (uid, pk)) /\
  (rows = [] ->
   result = (HttpResponseRedirect "cart",
             {| cart := cart session;
                messages :=
                  messages session ++ [MessageWarning "Ваша корзина пуста."] |},
             db)).
Proof.
  intros rows result db'.
  split; [intros pk c; apply elem_of_get_cart_courses|].
  split; [|apply checkout_empty].
  assert (Hskip : forall pk, Course.is_published <$> courses db !! pk <> Some true ->
                             pk ∉ rows.*1).
  { intros pk Hpk [[pk' c] [-> Hin]]%list_elem_of_fmap.
    apply elem_of_get_cart_courses in Hin as (_ & Hc & Hp).
    cbn in Hpk. by rewrite Hc, <- Hp in Hpk. }
  destruct (decide (rows = [])) as [Hnil|Hne].
  - exists []. unfold db', result. rewrite (checkout_empty uid session db Hnil).
    cbn. split; [by rewrite app_nil_r|]. intros pk _. split; [|done].
    intros item Hin. by inversion Hin.
  - exists (List.map (line_item (S (length (orders db)))) rows).
    unfold db', result. rewrite (checkout_nonempty uid session db Hne).
    cbn [fst snd]. fold rows.
    destruct (checkout_loop uid (S (length (orders db))) rows
                (set_orders db
                   (orders db ++ [{| Order.user := uid; Order.status := "paid" |}])))
      as (_ & _ & _ & _ & _ & Hi & He).
    cbn in Hi, He. split; [exact Hi|].
    intros pk Hpk. specialize (Hskip pk Hpk). split.
    + intros item [row [-> Hin]]%list_elem_of_fmap. cbn. intros <-.
      apply Hskip, list_elem_of_fmap. by exists row.
    + rewrite He. cbn. rewrite decide_False; [done|]. by intros [_ ?].
Qed.

Lemma checkout_skips_unpublished_witness :
  let session := session_with [3; 9] in
  get_cart_courses session shop_db = [] /\
  CheckoutView_post 7 session shop_db
  = (HttpResponseRedirect "cart",
     {| cart := [3; 9];
        messages := [MessageWarning "Ваша корзина пуста."] |},
     shop_db).
Proof.
  intros session.
  assert (Hnil : get_cart_courses session shop_db = [])
    by (vm_compute; reflexivity).
  split; [exact Hnil|].
  exact (proj2 (proj2 (checkout_skips_unpublished 7 session shop_db)) Hnil).
Defined.

(** ** The cart *)

Lemma list_remove_elem_of x y l :
  y ∈ list_remove x l -> y ∈ l.
Proof.
  induction l as [|z l IH]; cbn; [done|].
  case_decide; rewrite ?elem_of_cons; intuition.
Qed.

Lemma list_remove_NoDup x l : NoDup l -> NoDup (list_remove x l).
Proof.
  induction 1 as [|z l Hz Hnd IH]; cbn; [constructor|].
  case_decide; [done|]. constructor; [|done].
  intros Hin. by apply Hz, (list_remove_elem_of x).
Qed.

Lemma list_remove_spec x y l :
  NoDup l -> y ∈ list_remove x l <-> y ∈ l /\ y <> x.
Proof.
  induction 1 as [|z l Hz Hnd IH]; cbn.
  - split; [by intros ?%elem_of_nil | by intros [?%elem_of_nil _]].
  - case_decide as Hzx; subst; rewrite ?elem_of_cons, ?IH.
    + split; [|intuition]. intros Hy. split; [by right|]. by intros ->.
    + split; [|intuition]. intros [->|[? ?]]; intuition.
Qed.

Lemma list_remove_notin x l : x ∉ l -> list_remove x l = l.
Proof.
  induction l as [|z l IH]; cbn; [done|].
  rewrite not_elem_of_cons. intros [Hne Hnotin].
  rewrite decide_False by done. by rewrite IH.
Qed.

Lemma list_remove_snoc x l : x ∉ l -> list_remove x (l ++ [x]) = l.
Proof.
  induction l as [|z l IH]; cbn.
  - intros _. by rewrite decide_True.
  - rewrite not_elem_of_cons. intros [Hne Hnotin].
    rewrite decide_False by done. by rewrite IH.
Qed.

Lemma add_to_cart_only_published_aux course_title pk cart db c :
  courses db !! pk = Some c -> Course.is_published c = true ->
  forall x, x ∈ (AddToCartView_post course_title pk cart db).1.2 <->
            x ∈ cart \/ x = pk.
Proof.
  intros Hc Hp x. unfold AddToCartView_post. rewrite Hc, Hp. cbn.
  destruct (decide (pk ∈ cart)) as [Hin|Hnotin].
  - rewrite (bool_decide_eq_true_2 _ Hin). cbn.
    split; [by left | by intros [?| ->]].
  - rewrite (bool_decide_eq_false_2 _ Hnotin). cbn.
    by rewrite elem_of_app, list_elem_of_singleton.
Qed.

(** X1: only a course that exists and is published gets into the
    cart. For any other key the view answers 404 and leaves the cart and
    the message queue alone; for a published course the answer is the
    redirect to the cart page, the course is in the cart afterwards, and
    no other entry is added or lost. *)
Theorem add_to_cart_only_published course_title pk cart db :
  let r := AddToCartView_post course_title pk cart db in
  (Course.is_published <$> courses db !! pk <> Some true ->
   r = (Http404, cart, None)) /\
  (Course.is_published <$> courses db !! pk = Some true ->
   r.1.1 = HttpResponseRedirect "cart" /\
   (forall x, x ∈ r.1.2 <-> x ∈ cart \/ x = pk) /\
   (pk ∈ cart -> r.1.2 = cart) /\
   (pk ∉ cart -> r.1.2 = cart ++ [pk])).
Proof.
  unfold AddToCartView_post.
  destruct (courses db !! pk) as [c|]; cbn; [|by split].
  destruct (Course.is_published c); cbn; [|by split].
  split; [done|]. intros _.
  destruct (decide (pk ∈ cart)) as [Hin|Hnotin].
  - rewrite (bool_decide_eq_true_2 _ Hin). cbn.
    repeat split; try done; [by left|by intros [?| ->]].
  - rewrite (bool_decide_eq_false_2 _ Hnotin). cbn.
    repeat split; try done;
      rewrite elem_of_app, list_elem_of_singleton; done.
Qed.

Lemma add_to_cart_only_published_witness :
  Course.is_published <$> courses shop_db !! 3 <> Some true /\
  AddToCartView_post (fun _ => "Python"%string) 3 [1] shop_db = (Http404, [1], None) /\
  Course.is_published <$> courses shop_db !! 2 = Some true /\
  (AddToCartView_post (fun _ => "Python"%string) 2 [1] shop_db).1.2 = [1; 2].
Proof.
  assert (H3 : Course.is_published <$> courses shop_db !! 3 <> Some true)
    by (vm_compute; discriminate).
  assert (H2 : Course.is_published <$> courses shop_db !! 2 = Some true)
    by (vm_compute; reflexivity).
  split; [exact H3|].
  split; [exact (proj1 (add_to_cart_only_published _ 3 [1] shop_db) H3)|].
  split; [exact H2|].
  apply (proj2 (add_to_cart_only_published _ 2 [1] shop_db) H2).
  apply not_elem_of_cons. split; [discriminate | apply not_elem_of_nil].
Defined.

Lemma add_to_cart_NoDup course_title pk cart db :
  NoDup cart -> NoDup (AddToCartView_post course_title pk cart db).1.2.
Proof.
  intros Hnd. unfold AddToCartView_post.
  destruct (courses db !! pk) as [c|]; cbn; [|done].
  destruct (Course.is_published c); cbn; [|done].
  destruct (decide (pk ∈ cart)) as [Hin|Hnotin].
  - by rewrite (bool_decide_eq_true_2 _ Hin).
  - rewrite (bool_decide_eq_false_2 _ Hnotin). cbn.
    apply NoDup_app. split; [done|]. split; [|apply NoDup_singleton].
    intros x Hx ->%list_elem_of_singleton. done.
Qed.

Lemma remove_from_cart_NoDup pk cart :
  NoDup cart -> NoDup (RemoveFromCartView_post pk cart).1.2.
Proof.
  intros Hnd. unfold RemoveFromCartView_post.
  case_bool_decide; cbn; [by apply list_remove_NoDup | done].
Qed.

Lemma checkout_cart uid session db :
  cart (CheckoutView_post uid session db).1.2 = [] \/
  cart (CheckoutView_post uid session db).1.2 = cart session.
Proof.
  unfold CheckoutView_post.
  destruct (get_cart_courses session db); cbn; [by right | by left].
Qed.

(** X2: a cart never lists a course twice. Every cart produced from
    the empty cart by the add, remove and checkout views is free of
    duplicates. *)
Theorem reachable_cart_NoDup cart : cart_reachable cart -> NoDup cart.
Proof.
  induction 1 as [|t pk c db _ IH|pk c _ IH|uid s db _ IH].
  - constructor.
  - by apply add_to_cart_NoDup.
  - by apply remove_from_cart_NoDup.
  - destruct (checkout_cart uid s db) as [-> | ->]; [constructor | done].
Qed.

Lemma reachable_cart_NoDup_witness :
  let c := (AddToCartView_post (fun _ => "Python"%string) 1
              (AddToCartView_post (fun _ => "Python"%string) 1 [] shop_db).1.2
              shop_db).1.2 in
  cart_reachable c /\ c = [1] /\ NoDup c.
Proof.
  intros c.
  assert (Hr : cart_reachable c) by (do 2 apply cart_add; apply cart_new).
  split; [exact Hr|]. split; [vm_compute; reflexivity|].
  exact (reachable_cart_NoDup c Hr).
Defined.

(** X3: adding a published course that is not in the cart and then
    removing it gives back the cart as it was. *)
Theorem add_then_remove_restores_cart course_title pk cart db :
  Course.is_published <$> courses db !! pk = Some true ->
  pk ∉ cart ->
  (RemoveFromCartView_post pk
     (AddToCartView_post course_title pk cart db).1.2).1.2 = cart.
Proof.
  intros Hpub Hnotin. unfold AddToCartView_post.
  destruct (courses db !! pk) as [c|]; cbn in *; [|done].
  destruct (Course.is_published c); cbn; [|by simplify_eq].
  rewrite (bool_decide_eq_false_2 _ Hnotin). cbn.
  unfold RemoveFromCartView_post.
  rewrite bool_decide_eq_true_2
    by (rewrite elem_of_app, list_elem_of_singleton; by right).
  cbn. by apply list_remove_snoc.
Qed.

Lemma add_then_remove_restores_cart_witness :
  Course.is_published <$> courses shop_db !! 2 = Some true /\ (2 ∉ [1]) /\
  (RemoveFromCartView_post 2
     (AddToCartView_post (fun _ => "Python"%string) 2 [1] shop_db).1.2).1.2 = [1].
Proof.
  assert (H2 : Course.is_published <$> courses shop_db !! 2 = Some true)
    by (vm_compute; reflexivity).
  assert (Hn : 2 ∉ [1]).
  { apply not_elem_of_cons. split; [discriminate | apply not_elem_of_nil]. }
  split; [exact H2|]. split; [exact Hn|].
  exact (add_then_remove_restores_cart _ 2 [1] shop_db H2 Hn).
Defined.

(** X4: removing a course from a cart without duplicates takes
    exactly that course out: it is not in the cart afterwards and every
    other entry stays. Removing a course that is not in the cart changes
    nothing and queues no message. *)
Theorem remove_from_cart_exact pk cart :
  NoDup cart ->
  let r := RemoveFromCartView_post pk cart in
  r.1.1 = HttpResponseRedirect "cart" /\
  (pk ∉ r.1.2) /\
  (forall x, x ∈ r.1.2 <-> x ∈ cart /\ x <> pk) /\
  (pk ∉ cart -> r = (HttpResponseRedirect "cart", cart, None)).
Proof.
  intros Hnd. unfold RemoveFromCartView_post.
  destruct (decide (pk ∈ cart)) as [Hin|Hnotin].
  - rewrite (bool_decide_eq_true_2 _ Hin). cbn.
    split; [done|]. split; [|split; [|done]].
    + rewrite list_remove_spec by done. by intros [_ ?].
    + intros x. by apply list_remove_spec.
  - rewrite (bool_decide_eq_false_2 _ Hnotin). cbn.
    split; [done|]. split; [done|]. split; [|done].
    intros x. split; [|by intros [? _]].
    intros Hx. split; [done|]. by intros ->.
Qed.

Lemma remove_from_cart_exact_witness :
  NoDup [1; 2; 3] /\ (RemoveFromCartView_post 2 [1; 2; 3]).1.2 = [1; 3] /\
  (2 ∉ (RemoveFromCartView_post 2 [1; 2; 3]).1.2).
Proof.
  assert (Hnd : NoDup [1; 2; 3])
    by (apply (bool_decide_unpack (NoDup [1; 2; 3])); vm_compute; exact I).
  split; [exact Hnd|]. split; [reflexivity|].
  exact (proj1 (proj2 (remove_from_cart_exact 2 [1; 2; 3] Hnd))).
Defined.

(** ** Totals and repeated checkout *)

Lemma fold_left_Zadd l a : fold_left Z.add l a = (a + fold_left Z.add l 0)%Z.
Proof.
  revert a. induction l as [|x l IH]; intros a; cbn [fold_left]; [lia|].
  rewrite (IH (a + x)%Z), (IH (0 + x)%Z). lia.
Qed.

Lemma decimal_sum_cons x l : decimal_sum (x :: l) = (x + decimal_sum l)%Z.
Proof. unfold decimal_sum. cbn [fold_left]. rewrite fold_left_Zadd. lia. Qed.

Lemma filter_none {A} (f : A -> bool) (l : list A) :
  (forall x, x ∈ l -> f x = false) -> List.filter f l = [].
Proof.
  induction l as [|x l IH]; cbn; intros H; [done|].
  rewrite (H x) by apply list_elem_of_here.
  apply IH. intros y Hy. apply H. by apply list_elem_of_further.
Qed.

Lemma filter_all {A} (f : A -> bool) (l : list A) :
  (forall x, x ∈ l -> f x = true) -> List.filter f l = l.
Proof.
  induction l as [|x l IH]; cbn; intros H; [done|].
  rewrite (H x) by apply list_elem_of_here. f_equal.
  apply IH. intros y Hy. apply H. by apply list_elem_of_further.
Qed.

Lemma line_items_total order_pk rows :
  decimal_sum (List.map OrderItem_total_price (List.map (line_item order_pk) rows))
  = decimal_sum
      (List.map (fun row : nat * Course.t => Course.price row.2)
         (List.filter (fun row : nat * Course.t => negb (Course.is_free row.2)) rows)).
Proof.
  induction rows as [|row rows IH]; [done|].
  cbn [List.map List.filter]. rewrite decimal_sum_cons, IH.
  unfold OrderItem_total_price, line_item. cbn [OrderItem.price].
  destruct (Course.is_free row.2); cbn [negb List.map]; [lia|].
  by rewrite decimal_sum_cons.
Qed.

Lemma get_cart_courses_empty_cart session db :
  cart session = [] -> get_cart_courses session db = [].
Proof.
  intros Hc. unfold get_cart_courses. apply filter_none.
  intros [pk c] _. cbn. rewrite Hc.
  by rewrite (bool_decide_eq_false_2 _ (not_elem_of_nil pk)).
Qed.

(** X5: the total shown on the checkout page is the total of the
    order that the checkout creates. When every existing order item
    belongs to an existing order and the cart has courses to buy,
    [Order.total_amount] of the new, last order equals the
    [total_amount] of the page. *)
Theorem checkout_total_is_order_total uid session db :
  items_reference_orders db ->
  get_cart_courses session db <> [] ->
  let db' := (CheckoutView_post uid session db).2 in
  length (orders db') = S (length (orders db)) /\
  Order_total_amount db' (length (orders db'))
  = (CheckoutView_get_context_data session db).2.
Proof.
  intros Hrefs Hne db'. unfold db'.
  rewrite (checkout_nonempty uid session db Hne). cbn [snd].
  destruct (checkout_loop uid (S (length (orders db)))
              (get_cart_courses session db)
              (set_orders db
                 (orders db ++ [{| Order.user := uid; Order.status := "paid" |}])))
    as (_ & _ & _ & _ & Ho & Hi & _).
  cbn in Ho, Hi.
  assert (Hlen : length
            (orders
               (fold_left (checkout_course uid (S (length (orders db))))
                  (get_cart_courses session db)
                  (set_orders db
                     (orders db ++
                        [{| Order.user := uid; Order.status := "paid" |}]))))
          = S (length (orders db))).
  { rewrite Ho, length_app. cbn. lia. }
  split; [exact Hlen|]. rewrite Hlen.
  unfold Order_total_amount, CheckoutView_get_context_data. cbn [snd].
  rewrite Hi, List.filter_app.
  rewrite (filter_none _ (order_items db)).
  - cbn. rewrite filter_all; [apply line_items_total|].
    intros item [row [-> _]]%list_elem_of_fmap. cbn. apply Nat.eqb_refl.
  - intros item Hitem. apply Nat.eqb_neq.
    specialize (Hrefs item Hitem). lia.
Qed.

Lemma checkout_total_is_order_total_witness :
  let session := session_with [1; 2; 3] in
  let db' := (CheckoutView_post 7 session shop_db).2 in
  items_reference_orders shop_db /\
  get_cart_courses session shop_db <> [] /\
  Order_total_amount db' (length (orders db')) = 99000%Z.
Proof.
  intros session db'.
  assert (Hrefs : items_reference_orders shop_db).
  { intros item Hitem. by apply elem_of_nil in Hitem. }
  assert (Hne : get_cart_courses session shop_db <> [])
    by (vm_compute; discriminate).
  split; [exact Hrefs|]. split; [exact Hne|].
  unfold db'.
  rewrite (proj2 (checkout_total_is_order_total 7 session shop_db Hrefs Hne)).
  vm_compute. reflexivity.
Defined.

(** X6: a checkout is not repeated by sending it again. The
    checkout that follows any checkout, with the session and the database
    that the first one left, finds nothing to buy: it answers with the
    redirect to the cart and returns the database and the cart
    unchanged. *)
Theorem checkout_again_orders_nothing uid session db :
  let first := CheckoutView_post uid session db in
  let second := CheckoutView_post uid first.1.2 first.2 in
  second.1.1 = HttpResponseRedirect "cart" /\
  second.2 = first.2 /\
  cart second.1.2 = cart first.1.2.
Proof.
  intros first second.
  assert (Hnil : get_cart_courses first.1.2 first.2 = []).
  { unfold first. destruct (get_cart_courses session db) as [|row rows] eqn:Hrows.
    - by rewrite (checkout_empty uid session db Hrows).
    - rewrite checkout_nonempty by (rewrite Hrows; discriminate).
      by apply get_cart_courses_empty_cart. }
  unfold second. by rewrite (checkout_empty uid _ _ Hnil).
Qed.

(** X7: buying a course opens its lessons for progress tracking.
    When a published course is put into the cart and the cart is checked
    out, the user is enrolled in the course, and a completion request of
    that user for any lesson of the course is stored with the requested
    state. *)
Theorem purchase_unlocks_progress course_title uid pk l cart0 queued flag now db :
  Course.is_published <$> courses db !! pk = Some true ->
  lesson_course db l = Some pk ->
  let cart1 := (AddToCartView_post course_title pk cart0 db).1.2 in
  let db1 := (CheckoutView_post uid {| cart := cart1; messages := queued |} db).2 in
  let r := MarkLessonCompletedView_dispatch
             {| user := AuthenticatedUser uid; POST_lesson_id := Some l;
                POST_completed := flag |} now db1 in
  is_enrolled db1 uid pk = true /\
  exists p, progress r.2 !! (uid, l) = Some p /\
            Progress.completed p = bool_decide (flag = Some "true"%string).
Proof.
  intros Hpub Hl cart1 db1 r.
  destruct (courses db !! pk) as [c|] eqn:Hc; [|done].
  cbn in Hpub. injection Hpub as Hpub.
  assert (Hin : pk ∈ cart1).
  { apply (add_to_cart_only_published_aux course_title pk cart0 db c Hc Hpub).
    by right. }
  set (session := {| cart := cart1; messages := queued |}).
  assert (Hrow : (pk, c) ∈ get_cart_courses session db).
  { by apply elem_of_get_cart_courses. }
  assert (Hne : get_cart_courses session db <> []).
  { intros Hnil. rewrite Hnil in Hrow. by apply elem_of_nil in Hrow. }
  destruct (checkout_loop uid (S (length (orders db)))
              (get_cart_courses session db)
              (set_orders db
                 (orders db ++ [{| Order.user := uid; Order.status := "paid" |}])))
    as (_ & Hm & Hls & _ & _ & _ & He).
  cbn in Hm, Hls, He.
  assert (Hdb1 : db1 = fold_left (checkout_course uid (S (length (orders db))))
                         (get_cart_courses session db)
                         (set_orders db
                            (orders db ++
                               [{| Order.user := uid; Order.status := "paid" |}]))).
  { unfold db1. fold session. by rewrite (checkout_nonempty uid session db Hne). }
  assert (Henr : is_enrolled db1 uid pk = true).
  { unfold is_enrolled. apply bool_decide_eq_true. rewrite Hdb1, He. cbn.
    rewrite decide_True; [done|]. split; [done|].
    apply list_elem_of_fmap. by exists (pk, c). }
  assert (Hl1 : lesson_course db1 l = Some pk).
  { unfold lesson_course, module_course in *. by rewrite Hdb1, Hls, Hm. }
  split; [exact Henr|].
  unfold r. rewrite (dispatch_store_enrolled db1 uid l pk flag now Hl1 Henr).
  cbn. eexists. split; [apply toggle_lookup | apply toggle_completed].
Qed.

Lemma purchase_unlocks_progress_witness :
  let db := set_enrollments (single_module_db 3 0) ∅ in
  let cart1 := (AddToCartView_post (fun _ => "Python"%string) 1 [] db).1.2 in
  let db1 := (CheckoutView_post 7 {| cart := cart1; messages := [] |} db).2 in
  Course.is_published <$> courses db !! 1 = Some true /\
  lesson_course db 2 = Some 1 /\
  is_enrolled db 7 1 = false /\
  is_enrolled db1 7 1 = true.
Proof.
  intros db cart1 db1.
  assert (Hp : Course.is_published <$> courses db !! 1 = Some true)
    by (vm_compute; reflexivity).
  assert (Hl : lesson_course db 2 = Some 1) by (vm_compute; reflexivity).
  split; [exact Hp|]. split; [exact Hl|]. split; [vm_compute; reflexivity|].
  exact (proj1 (purchase_unlocks_progress (fun _ => "Python"%string) 7 1 2 []
                  [] (Some "true"%string) 2000%Z db Hp Hl)).
Defined.

(** ** Enrolling *)

Lemma is_enrolled_true db uid pk :
  is_enrolled db uid pk = true <-> is_Some (enrollments db !! (uid, pk)).
Proof. unfold is_enrolled. apply bool_decide_eq_true. Qed.

Lemma is_enrolled_false db uid pk :
  is_enrolled db uid pk = false <-> enrollments db !! (uid, pk) = None.
Proof.
  unfold is_enrolled. rewrite bool_decide_eq_false, <- eq_None_not_Some. done.
Qed.

(** X8: the quick enrollment can be sent twice without harm. The
    second POST of the same user for the same course leaves the database of
    the first one as it is and, when the course exists, is answered with
    the already-enrolled warning; a user who was enrolled before the first
    POST keeps the enrollment row untouched. *)
Theorem quick_enroll_twice course_title uid pk db :
  let first := quick_enroll course_title POST (AuthenticatedUser uid) pk db in
  let second := quick_enroll course_title POST (AuthenticatedUser uid) pk first.2 in
  second.2 = first.2 /\
  (is_Some (courses db !! pk) ->
   is_enrolled first.2 uid pk = true /\
   second.1.2 = Some (LevelWarning, "Вы уже записаны на этот курс!"%string)) /\
  (is_Some (enrollments db !! (uid, pk)) -> first.2 = db).
Proof.
  cbn. unfold quick_enroll.
  destruct (courses db !! pk) as [c|] eqn:Hc; cbn.
  - destruct (is_enrolled db uid pk) eqn:He; cbn.
    + rewrite Hc, He. cbn. split; [done|]. split; [by intros _|done].
    + rewrite Hc. cbn.
      assert (He' : is_enrolled
                (set_enrollments db
                   (<[(uid, pk) := {| Enrollment.completed := false |}]>
                      (enrollments db))) uid pk = true).
      { apply is_enrolled_true. cbn. rewrite lookup_insert_eq. eauto. }
      rewrite He'. cbn. split; [done|]. split; [by intros _|].
      intros Hsome. apply is_enrolled_true in Hsome. congruence.
  - rewrite Hc. split; [done|]. split; [|done]. by intros [? ?].
Qed.

Lemma quick_enroll_twice_witness :
  let first := quick_enroll (fun _ => "Python"%string) POST (AuthenticatedUser 7)
                 3 shop_db in
  is_Some (courses shop_db !! 3) /\
  is_enrolled shop_db 7 3 = false /\
  is_enrolled first.2 7 3 = true.
Proof.
  intros first.
  assert (Hc : is_Some (courses shop_db !! 3)) by (vm_compute; eauto).
  split; [exact Hc|]. split; [vm_compute; reflexivity|].
  exact (proj1 (proj1 (proj2 (quick_enroll_twice (fun _ => "Python"%string) 7 3
                                shop_db)) Hc)).
Defined.

(** X9: the quick enrollment writes nothing but the caller's own
    enrollment. It leaves every other table as it is, keeps every
    enrollment row that exists, and an enrollment entry differs afterwards
    only if it is the one of the authenticated caller for the requested
    course, the method is POST and the course exists. *)
Theorem quick_enroll_frame course_title method user pk db :
  let db' := (quick_enroll course_title method user pk db).2 in
  courses db' = courses db /\ modules db' = modules db /\
  lessons db' = lessons db /\ progress db' = progress db /\
  orders db' = orders db /\ order_items db' = order_items db /\
  (forall k e, enrollments db !! k = Some e -> enrollments db' !! k = Some e) /\
  (forall k, enrollments db' !! k <> enrollments db !! k ->
     user = AuthenticatedUser k.1 /\ k.2 = pk /\ method = POST /\
     is_Some (courses db !! pk)).
Proof.
  cbn. unfold quick_enroll.
  destruct user as [|uid]; cbn; [by repeat split|].
  destruct method; cbn; [|by repeat split].
  destruct (courses db !! pk) as [c|]; cbn; [|by repeat split].
  destruct (is_enrolled db uid pk) eqn:He; cbn; [by repeat split|].
  apply is_enrolled_false in He.
  split; [done|]. split; [done|]. split; [done|]. split; [done|].
  split; [done|]. split; [done|]. split.
  - intros k e Hk. rewrite lookup_insert_ne; [done|]. intros <-. congruence.
  - intros [u c'] Hk. destruct (decide ((uid, pk) = (u, c'))) as [[= <- <-]|Hne].
    + cbn. eauto.
    + by rewrite lookup_insert_ne in Hk.
Qed.

Lemma quick_enroll_frame_witness :
  let db' := (quick_enroll (fun _ => "Python"%string) POST (AuthenticatedUser 7)
                1 shop_db).2 in
  enrollments shop_db !! (7, 2) = Some {| Enrollment.completed := true |} /\
  enrollments db' !! (7, 2) = Some {| Enrollment.completed := true |}.
Proof.
  intros db'.
  assert (H : enrollments shop_db !! (7, 2)
              = Some {| Enrollment.completed := true |})
    by (vm_compute; reflexivity).
  split; [exact H|].
  exact (proj1 (proj2 (proj2 (proj2 (proj2 (proj2 (proj2
           (quick_enroll_frame (fun _ => "Python"%string) POST
              (AuthenticatedUser 7) 1 shop_db))))))) (7, 2) _ H).
Defined.

(** X10: the two ways to enroll differ on unpublished courses. The
    quick enrollment looks the course up without regard to [is_published]
    and enrolls the user in an unpublished course; the enrollment form
    does not offer such a course and rejects it as an invalid choice,
    writing nothing. *)
Theorem quick_enroll_ignores_is_published course_title uid pk c db :
  courses db !! pk = Some c ->
  Course.is_published c = false ->
  enrollments db !! (uid, pk) = None ->
  enrollments (quick_enroll course_title POST (AuthenticatedUser uid) pk db).2
    !! (uid, pk) = Some {| Enrollment.completed := false |} /\
  EnrollView_post course_title uid (Some pk) db = (inl InvalidChoice, None, db).
Proof.
  intros Hc Hp He. split.
  - unfold quick_enroll. rewrite Hc.
    rewrite (proj2 (is_enrolled_false db uid pk) He). cbn.
    apply lookup_insert_eq.
  - unfold EnrollView_post, EnrollmentForm_clean.
    rewrite bool_decide_eq_false_2; [done|].
    intros [[pk' c'] [Heq Hin]]%list_elem_of_fmap. cbn in Heq. subst pk'.
    unfold EnrollmentForm_queryset in Hin.
    apply list_elem_of_In, List.filter_In in Hin as [Hin Hf].
    apply list_elem_of_In, elem_of_map_to_list in Hin.
    cbn in Hf. rewrite Hc in Hin. injection Hin as <-.
    by rewrite Hp in Hf.
Qed.

Lemma quick_enroll_ignores_is_published_witness :
  let c := {| Course.price := 70000%Z; Course.is_free := false;
              Course.is_published := false |} in
  courses shop_db !! 3 = Some c /\ Course.is_published c = false /\
  enrollments shop_db !! (7, 3) = None /\
  EnrollView_post (fun _ => "Python"%string) 7 (Some 3) shop_db
  = (inl InvalidChoice, None, shop_db).
Proof.
  intros c.
  assert (Hc : courses shop_db !! 3 = Some c) by (vm_compute; reflexivity).
  assert (Hp : Course.is_published c = false) by reflexivity.
  assert (He : enrollments shop_db !! (7, 3) = None) by (vm_compute; reflexivity).
  split; [exact Hc|]. split; [exact Hp|]. split; [exact He|].
  exact (proj2 (quick_enroll_ignores_is_published (fun _ => "Python"%string) 7 3
                  c shop_db Hc Hp He)).
Defined.

Lemma elem_of_EnrollmentForm_queryset db uid pk :
  pk ∈ (EnrollmentForm_queryset db uid).*1 <->
  Course.is_published <$> courses db !! pk = Some true /\
  enrollments db !! (uid, pk) = None.
Proof.
  unfold EnrollmentForm_queryset. rewrite list_elem_of_fmap. split.
  - intros [[pk' c] [-> Hin]]. cbn.
    apply list_elem_of_In, List.filter_In in Hin as [Hin Hf].
    apply list_elem_of_In, elem_of_map_to_list in Hin. cbn in Hf.
    apply andb_true_iff in Hf as [Hp He]. apply negb_true_iff in He.
    rewrite Hin. cbn. rewrite Hp. split; [done|]. by apply is_enrolled_false.
  - intros [Hp He]. destruct (courses db !! pk) as [c|] eqn:Hc; [|done].
    cbn in Hp. injection Hp as Hp. exists (pk, c). split; [done|].
    apply list_elem_of_In, List.filter_In. split.
    + by apply list_elem_of_In, elem_of_map_to_list.
    + cbn. rewrite Hp. cbn. apply negb_true_iff. by apply is_enrolled_false.
Qed.

(** X11: the enrollment form enrolls exactly in published courses
    the user is not enrolled in. A POST for such a course writes the new
    enrollment of the user, not completed, and redirects to the course;
    every other POST is answered with a form error and writes nothing. The
    duplicate check of [EnrollmentForm.clean] never rejects a submission,
    because the choice field has already excluded the courses of the
    user. *)
Theorem enroll_view_outcomes course_title uid course db :
  let r := EnrollView_post course_title uid course db in
  (forall text, r.1.1 <> inl (ValidationError text)) /\
  (forall e, r.1.1 = inl e -> r.2 = db) /\
  (forall response, r.1.1 = inr response ->
     exists pk,
       course = Some pk /\
       Course.is_published <$> courses db !! pk = Some true /\
       enrollments db !! (uid, pk) = None /\
       response = HttpResponseRedirect (url_with_pk "course_detail" pk) /\
       r.2 = set_enrollments db
               (<[(uid, pk) := {| Enrollment.completed := false |}]>
                  (enrollments db))) /\
  (forall pk,
     course = Some pk ->
     Course.is_published <$> courses db !! pk = Some true ->
     enrollments db !! (uid, pk) = None ->
     r.1.1 = inr (HttpResponseRedirect (url_with_pk "course_detail" pk))).
Proof.
  cbn. unfold EnrollView_post, EnrollmentForm_clean.
  destruct course as [pk|]; cbn.
  2:{ repeat split; done. }
  destruct (decide (pk ∈ (EnrollmentForm_queryset db uid).*1)) as [Hin|Hnotin].
  - rewrite (bool_decide_eq_true_2 _ Hin). cbn.
    apply elem_of_EnrollmentForm_queryset in Hin as [Hp He].
    rewrite (proj2 (is_enrolled_false db uid pk) He). cbn.
    split; [done|]. split; [done|]. split; [|by intros ? [= <-]].
    intros response [= <-]. by exists pk.
  - rewrite (bool_decide_eq_false_2 _ Hnotin). cbn.
    split; [done|]. split; [done|]. split; [done|].
    intros pk' [= <-] Hp He. exfalso. apply Hnotin.
    by apply elem_of_EnrollmentForm_queryset.
Qed.

Lemma enroll_view_outcomes_witness :
  Course.is_published <$> courses shop_db !! 1 = Some true /\
  enrollments shop_db !! (7, 1) = None /\
  (EnrollView_post (fun _ => "Python"%string) 7 (Some 1) shop_db).1.1
  = inr (HttpResponseRedirect (url_with_pk "course_detail" 1)).
Proof.
  assert (Hp : Course.is_published <$> courses shop_db !! 1 = Some true)
    by (vm_compute; reflexivity).
  assert (He : enrollments shop_db !! (7, 1) = None) by (vm_compute; reflexivity).
  split; [exact Hp|]. split; [exact He|].
  exact (proj2 (proj2 (proj2 (enroll_view_outcomes (fun _ => "Python"%string) 7
                                (Some 1) shop_db))) 1 eq_refl Hp He).
Defined.

(** ** The lessons of a module in order *)

#[local] Instance order_le_total : Total order_le.
Proof. intros a b. unfold order_le. lia. Qed.

#[local] Instance order_le_trans : Transitive order_le.
Proof. intros a b c. unfold order_le. lia. Qed.

Lemma elem_of_module_lessons db m l r :
  (l, r) ∈ module_lessons db m <->
  lessons db !! l = Some r /\ Lesson.module r = m.
Proof.
  unfold module_lessons. rewrite merge_sort_Permutation.
  rewrite list_elem_of_In, List.filter_In, <- list_elem_of_In.
  rewrite elem_of_map_to_list. cbn. by rewrite Nat.eqb_eq.
Qed.

Lemma elem_of_module_lessons_fst db m l :
  l ∈ (module_lessons db m).*1 <-> Lesson.module <$> lessons db !! l = Some m.
Proof.
  rewrite list_elem_of_fmap. split.
  - intros [[l' r] [-> [Hl Hm]%elem_of_module_lessons]]. cbn.
    rewrite Hl. cbn. by rewrite Hm.
  - intros Hl. destruct (lessons db !! l) as [r|] eqn:Hr; [|done].
    cbn in Hl. injection Hl as Hl. exists (l, r). split; [done|].
    by apply elem_of_module_lessons.
Qed.

Lemma filter_fst_NoDup {A B} (f : A * B -> bool) (l : list (A * B)) :
  NoDup l.*1 -> NoDup (List.filter f l).*1.
Proof.
  induction l as [|[a b] l IH]; cbn; intros Hnd; [constructor|].
  apply NoDup_cons in Hnd as [Hnotin Hnd].
  destruct (f (a, b)); cbn; [|by apply IH].
  apply NoDup_cons. split; [|by apply IH].
  intros [[a' b'] [-> Hin]]%list_elem_of_fmap. apply Hnotin.
  apply list_elem_of_fmap. exists (a', b'). split; [done|].
  apply list_elem_of_In. apply list_elem_of_In in Hin.
  by apply List.filter_In in Hin as [Hin _].
Qed.

Lemma module_lessons_NoDup db m : NoDup (module_lessons db m).*1.
Proof.
  unfold module_lessons. rewrite merge_sort_Permutation.
  apply filter_fst_NoDup, NoDup_fst_map_to_list.
Qed.

Lemma module_lessons_sorted db m : StronglySorted order_le (module_lessons db m).
Proof. unfold module_lessons. apply StronglySorted_merge_sort; apply _. Qed.

Lemma module_lessons_length db m :
  length (module_lessons db m) = count_lessons db (in_module db m).
Proof.
  unfold module_lessons, count_lessons.
  rewrite (Permutation_length (merge_sort_Permutation _ _)). f_equal.
  apply List.filter_ext_in. intros [l r] Hin.
  apply list_elem_of_In, elem_of_map_to_list in Hin. cbn.
  unfold in_module. rewrite Hin. cbn.
  destruct (decide (Lesson.module r = m)) as [->|Hne].
  - by rewrite Nat.eqb_refl, bool_decide_eq_true_2.
  - rewrite (proj2 (Nat.eqb_neq _ _) Hne). symmetry.
    apply bool_decide_eq_false_2. by intros [= ?].
Qed.

(** [lessons.index(lesson)] finds every lesson of the list, at the one
    position where its key is. *)
Lemma lesson_index_lookup l rows i :
  NoDup rows.*1 -> rows.*1 !! i = Some l -> lesson_index l rows = Some i.
Proof.
  intros Hnd Hi. unfold lesson_index.
  rewrite list_lookup_fmap in Hi.
  destruct (rows !! i) as [[l' r]|] eqn:Hri; [|done]. cbn in Hi.
  injection Hi as ->.
  assert (Hfind : list_find (fun row : nat * Lesson.t => row.1 = l) rows
                  = Some (i, (l, r))).
  { apply list_find_Some. split; [done|]. split; [done|].
    intros j [l2 r2] Hj Hlt Heq. cbn in Heq. subst l2.
    assert (Hji : j = i); [|lia].
    apply (NoDup_lookup rows.*1 j i l Hnd); rewrite list_lookup_fmap.
    - by rewrite Hj.
    - by rewrite Hri. }
  by rewrite Hfind.
Qed.

Lemma lesson_index_Some l rows i :
  lesson_index l rows = Some i -> rows.*1 !! i = Some l.
Proof.
  unfold lesson_index.
  destruct (list_find _ rows) as [[j [l' r]]|] eqn:Hfind; [|done].
  cbn. intros [= ->]. apply list_find_Some in Hfind as (Hj & Heq & _).
  cbn in Heq. subst. by rewrite list_lookup_fmap, Hj.
Qed.

Lemma lesson_index_elem_of l rows :
  NoDup rows.*1 -> l ∈ rows.*1 -> is_Some (lesson_index l rows).
Proof.
  intros Hnd [i Hi]%list_elem_of_lookup.
  rewrite (lesson_index_lookup l rows i Hnd Hi). eauto.
Qed.

Lemma StronglySorted_lookup_lt {A} (R : relation A) (rows : list A) i j x y :
  StronglySorted R rows -> rows !! i = Some x -> rows !! j = Some y ->
  i < j -> R x y.
Proof.
  intros Hs. revert i j. induction Hs as [|z rows Hs IH Hall]; intros i j Hi Hj Hlt.
  - done.
  - destruct j as [|j]; [lia|]. destruct i as [|i]; cbn in *.
    + injection Hi as ->. rewrite List.Forall_forall in Hall.
      apply Hall, list_elem_of_In, list_elem_of_lookup. eauto.
    + apply (IH i j); [done|done|lia].
Qed.

(** ** The lesson page *)

Lemma lesson_page_inv user c m l db ctx :
  LessonDetailView_get user c m l db = PageOk ctx ->
  exists lesson i,
    lessons db !! l = Some lesson /\ Lesson.module lesson = m /\
    module_course db m = Some c /\
    lesson_index l (module_lessons db m) = Some i /\
    previous_lesson ctx = neighbour_before (module_lessons db m) i /\
    next_lesson ctx = neighbour_after (module_lessons db m) i.
Proof.
  unfold LessonDetailView_get.
  destruct (lessons db !! l) as [lesson|]; [|done].
  destruct (Nat.eqb_spec (Lesson.module lesson) m) as [Hm|]; [|done]. cbn [negb].
  destruct (module_course db m) as [course|]; [|done].
  destruct (Nat.eqb_spec course c) as [->|]; [|done]. cbn [negb].
  destruct (lesson_index l (module_lessons db m)) as [i|]; [|done].
  intros Hok. exists lesson, i. repeat split; try done.
  - destruct user as [|uid]; [by injection Hok as <-|].
    destruct (is_enrolled db uid c); [|by injection Hok as <-].
    destruct (percentage _ _); [|done].
    destruct (percentage _ _); [|done]. by injection Hok as <-.
  - destruct user as [|uid]; [by injection Hok as <-|].
    destruct (is_enrolled db uid c); [|by injection Hok as <-].
    destruct (percentage _ _); [|done].
    destruct (percentage _ _); [|done]. by injection Hok as <-.
Qed.

Lemma lesson_page_sibling user c m l l' db ctx :
  LessonDetailView_get user c m l db = PageOk ctx ->
  l' ∈ (module_lessons db m).*1 ->
  exists ctx', LessonDetailView_get user c m l' db = PageOk ctx'.
Proof.
  intros Hok Hin.
  destruct (lesson_index_elem_of l' _ (module_lessons_NoDup db m) Hin) as [i' Hi'].
  apply elem_of_module_lessons_fst in Hin.
  destruct (lessons db !! l') as [lesson'|] eqn:Hl'; [|done].
  cbn in Hin. injection Hin as Hm'.
  unfold LessonDetailView_get in *. rewrite Hl', Hm', Nat.eqb_refl. cbn [negb].
  destruct (lessons db !! l) as [lesson|]; [|done].
  destruct (negb (Lesson.module lesson =? m)); [done|].
  destruct (module_course db m) as [course|]; [|done].
  destruct (negb (course =? c)); [done|].
  destruct (lesson_index l (module_lessons db m)) as [i|]; [|done].
  rewrite Hi'.
  destruct user as [|uid]; [eauto|].
  destruct (is_enrolled db uid course); [|eauto].
  destruct (percentage _ _); [|done].
  destruct (percentage _ _); [|done]. eauto.
Qed.

(** X12: on the lesson page, next and previous are inverse to each
    other. If the page of a lesson names a next lesson, the page of that
    lesson (same user, same course and module in the URL) exists and names
    the first lesson as its previous one; and the same with next and
    previous exchanged. *)
Theorem lesson_navigation_symmetric user c m l l' db ctx :
  LessonDetailView_get user c m l db = PageOk ctx ->
  (next_lesson ctx = Some l' ->
   exists ctx', LessonDetailView_get user c m l' db = PageOk ctx' /\
                previous_lesson ctx' = Some l) /\
  (previous_lesson ctx = Some l' ->
   exists ctx', LessonDetailView_get user c m l' db = PageOk ctx' /\
                next_lesson ctx' = Some l).
Proof.
  intros Hok.
  destruct (lesson_page_inv user c m l db ctx Hok)
    as (lesson & i & _ & _ & _ & Hi & Hprev & Hnext).
  pose proof (module_lessons_NoDup db m) as Hnd.
  pose proof (lesson_index_Some _ _ _ Hi) as Hli.
  set (rows := module_lessons db m) in *.
  split.
  - rewrite Hnext. unfold neighbour_after.
    destruct (Nat.ltb_spec i (length rows - 1)) as [Hlt|]; [|done].
    intros Hl'. rewrite <- list_lookup_fmap in Hl'.
    destruct (lesson_page_sibling user c m l l' db ctx Hok) as [ctx' Hok'].
    { apply list_elem_of_lookup. eauto. }
    exists ctx'. split; [done|].
    destruct (lesson_page_inv user c m l' db ctx' Hok')
      as (_ & i' & _ & _ & _ & Hi' & Hprev' & _).
    fold rows in Hi', Hprev'.
    rewrite (lesson_index_lookup l' rows (i + 1) Hnd Hl') in Hi'.
    injection Hi' as <-. rewrite Hprev'. unfold neighbour_before.
    rewrite (proj2 (Nat.ltb_lt 0 (i + 1))) by lia.
    replace (i + 1 - 1) with i by lia. by rewrite <- list_lookup_fmap.
  - rewrite Hprev. unfold neighbour_before.
    destruct (Nat.ltb_spec 0 i) as [Hlt|]; [|done].
    intros Hl'. rewrite <- list_lookup_fmap in Hl'.
    destruct (lesson_page_sibling user c m l l' db ctx Hok) as [ctx' Hok'].
    { apply list_elem_of_lookup. eauto. }
    exists ctx'. split; [done|].
    destruct (lesson_page_inv user c m l' db ctx' Hok')
      as (_ & i' & _ & _ & _ & Hi' & _ & Hnext').
    fold rows in Hi', Hnext'.
    rewrite (lesson_index_lookup l' rows (i - 1) Hnd Hl') in Hi'.
    injection Hi' as <-. rewrite Hnext'. unfold neighbour_after.
    assert (Hlen : i < length rows).
    { apply (lookup_lt_Some rows.*1 i l) in Hli. by rewrite length_fmap in Hli. }
    rewrite (proj2 (Nat.ltb_lt (i - 1) (length rows - 1))) by lia.
    replace (i - 1 + 1) with i by lia. by rewrite <- list_lookup_fmap.
Qed.

Lemma lesson_navigation_symmetric_witness :
  let db := single_module_db 3 0 in
  exists ctx,
    LessonDetailView_get (AuthenticatedUser 7) 1 1 1 db = PageOk ctx /\
    next_lesson ctx = Some 2 /\
    exists ctx', LessonDetailView_get (AuthenticatedUser 7) 1 1 2 db = PageOk ctx' /\
                 previous_lesson ctx' = Some 1.
Proof.
  intros db.
  destruct (LessonDetailView_get (AuthenticatedUser 7) 1 1 1 db) as [ctx| |] eqn:Hok;
    [|vm_compute in Hok; discriminate|vm_compute in Hok; discriminate].
  assert (Hnext : next_lesson ctx = Some 2).
  { vm_compute in Hok. injection Hok as <-. reflexivity. }
  exists ctx. split; [reflexivity|]. split; [exact Hnext|].
  exact (proj1 (lesson_navigation_symmetric (AuthenticatedUser 7) 1 1 1 2 db ctx Hok)
           Hnext).
Defined.

(** X13: the neighbours on the lesson page follow the order
    numbers. The previous lesson, when there is one, is a lesson of the
    same module whose order number is not greater than that of the lesson
    shown, and the next lesson one whose order number is not smaller; when
    there is no previous lesson no lesson of the module has a smaller order
    number, and when there is no next lesson none has a greater one. *)
Theorem lesson_neighbours_follow_order user c m l db ctx lesson :
  LessonDetailView_get user c m l db = PageOk ctx ->
  lessons db !! l = Some lesson ->
  (forall l0, previous_lesson ctx = Some l0 ->
     exists r0, lessons db !! l0 = Some r0 /\ Lesson.module r0 = m /\
                Lesson.order r0 <= Lesson.order lesson) /\
  (forall l1, next_lesson ctx = Some l1 ->
     exists r1, lessons db !! l1 = Some r1 /\ Lesson.module r1 = m /\
                Lesson.order lesson <= Lesson.order r1) /\
  (previous_lesson ctx = None ->
   forall l2 r2, lessons db !! l2 = Some r2 -> Lesson.module r2 = m ->
                 Lesson.order lesson <= Lesson.order r2) /\
  (next_lesson ctx = None ->
   forall l2 r2, lessons db !! l2 = Some r2 -> Lesson.module r2 = m ->
                 Lesson.order r2 <= Lesson.order lesson).
Proof.
  intros Hok Hl.
  destruct (lesson_page_inv user c m l db ctx Hok)
    as (lesson' & i & Hl' & Hm & _ & Hi & Hprev & Hnext).
  rewrite Hl in Hl'. injection Hl' as <-.
  pose proof (module_lessons_NoDup db m) as Hnd.
  pose proof (module_lessons_sorted db m) as Hs.
  pose proof (lesson_index_Some _ _ _ Hi) as Hli.
  assert (Hrow : module_lessons db m !! i = Some (l, lesson)).
  { rewrite list_lookup_fmap in Hli.
    destruct (module_lessons db m !! i) as [[l' r']|] eqn:Hri; [|done].
    cbn in Hli. injection Hli as ->. f_equal. f_equal.
    apply list_elem_of_lookup_2, elem_of_module_lessons in Hri as [Hr _].
    congruence. }
  assert (Hat : forall l2 r2, lessons db !! l2 = Some r2 -> Lesson.module r2 = m ->
                  exists j, module_lessons db m !! j = Some (l2, r2)).
  { intros l2 r2 Hl2 Hm2. apply list_elem_of_lookup.
    by apply elem_of_module_lessons. }
  set (rows := module_lessons db m) in *.
  assert (Hlen : i < length rows) by (by apply lookup_lt_Some in Hrow).
  rewrite Hprev, Hnext. unfold neighbour_before, neighbour_after.
  split; [|split; [|split]].
  - intros l0. destruct (Nat.ltb_spec 0 i) as [Hlt|]; [|done].
    destruct (rows !! (i - 1)) as [[l0' r0]|] eqn:Hr0; [|done].
    cbn. intros [= ->]. exists r0.
    pose proof (list_elem_of_lookup_2 _ _ _ Hr0) as Hin.
    apply elem_of_module_lessons in Hin as [? ?].
    split; [done|]. split; [done|].
    apply (StronglySorted_lookup_lt order_le rows (i - 1) i _ _ Hs Hr0 Hrow). lia.
  - intros l1. destruct (Nat.ltb_spec i (length rows - 1)) as [Hlt|]; [|done].
    destruct (rows !! (i + 1)) as [[l1' r1]|] eqn:Hr1; [|done].
    cbn. intros [= ->]. exists r1.
    pose proof (list_elem_of_lookup_2 _ _ _ Hr1) as Hin.
    apply elem_of_module_lessons in Hin as [? ?].
    split; [done|]. split; [done|].
    apply (StronglySorted_lookup_lt order_le rows i (i + 1) _ _ Hs Hrow Hr1). lia.
  - destruct (Nat.ltb_spec 0 i) as [Hlt|Hge].
    { destruct (lookup_lt_is_Some_2 rows (i - 1)) as [row Hrow']; [lia|].
      by rewrite Hrow'. }
    intros _ l2 r2 Hl2 Hm2. destruct (Hat l2 r2 Hl2 Hm2) as [j Hj].
    destruct (decide (j = i)) as [->|Hne]; [by simplify_eq|].
    apply (StronglySorted_lookup_lt order_le rows i j _ _ Hs Hrow Hj). lia.
  - destruct (Nat.ltb_spec i (length rows - 1)) as [Hlt|Hge].
    { destruct (lookup_lt_is_Some_2 rows (i + 1)) as [row Hrow']; [lia|].
      by rewrite Hrow'. }
    intros _ l2 r2 Hl2 Hm2. destruct (Hat l2 r2 Hl2 Hm2) as [j Hj].
    pose proof (lookup_lt_Some _ _ _ Hj).
    destruct (decide (j = i)) as [->|Hne]; [by simplify_eq|].
    apply (StronglySorted_lookup_lt order_le rows j i _ _ Hs Hj Hrow). lia.
Qed.

Lemma lesson_neighbours_follow_order_witness :
  let db := single_module_db 3 0 in
  let lesson := {| Lesson.module := 1; Lesson.order := 2;
                   Lesson.is_published := true |} in
  exists ctx,
    LessonDetailView_get AnonymousUser 1 1 2 db = PageOk ctx /\
    lessons db !! 2 = Some lesson /\
    previous_lesson ctx = Some 1 /\
    exists r0, lessons db !! 1 = Some r0 /\ Lesson.module r0 = 1 /\
               Lesson.order r0 <= Lesson.order lesson.
Proof.
  intros db lesson.
  destruct (LessonDetailView_get AnonymousUser 1 1 2 db) as [ctx| |] eqn:Hok;
    [|vm_compute in Hok; discriminate|vm_compute in Hok; discriminate].
  assert (Hl : lessons db !! 2 = Some lesson) by (vm_compute; reflexivity).
  assert (Hprev : previous_lesson ctx = Some 1).
  { vm_compute in Hok. injection Hok as <-. reflexivity. }
  exists ctx. split; [reflexivity|]. split; [exact Hl|]. split; [exact Hprev|].
  exact (proj1 (lesson_neighbours_follow_order AnonymousUser 1 1 2 db ctx lesson
                  Hok Hl) 1 Hprev).
Defined.

(** ** The response, the store and the pages *)

(** X14: a success response tells what was stored. It is given
    only to an authenticated user who is enrolled in the course of an
    existing lesson; the row of that user and lesson in the returned
    database has the [completed] of the response, which is the requested
    state, and the [completed_at] of the response is the timestamp of that
    row formatted to the minute, null when the row has none. *)
Theorem success_response_reports_stored_row request now db p :
  payload_of (MarkLessonCompletedView_post request now db).1 = Some p ->
  exists uid l c row,
    user request = AuthenticatedUser uid /\
    POST_lesson_id request = Some l /\
    lesson_course db l = Some c /\
    is_enrolled db uid c = true /\
    progress (MarkLessonCompletedView_post request now db).2 !! (uid, l)
    = Some row /\
    resp_completed p = Progress.completed row /\
    resp_completed_at p = strftime <$> Progress.completed_at row /\
    resp_completed p = bool_decide (POST_completed request = Some "true"%string).
Proof.
  unfold MarkLessonCompletedView_post, lesson_course.
  destruct (POST_lesson_id request) as [l|]; [|done].
  destruct (lessons db !! l) as [lesson|] eqn:Hl; [|done].
  destruct (user request) as [|uid]; [done|].
  destruct (module_course db (Lesson.module lesson)) as [c|] eqn:Hc; [|done].
  destruct (is_enrolled db uid c) eqn:He; [|done]. cbn [negb].
  pose proof (toggle_lookup now uid l
                (bool_decide (POST_completed request = Some "true"%string))
                (progress db)) as Hrow.
  pose proof (toggle_completed now uid l
                (bool_decide (POST_completed request = Some "true"%string))
                (progress db)) as Hcompleted.
  destruct (toggle _ _ _ _ _) as [q table]. cbn [fst snd] in *.
  destruct (percentage _ _) as [mp|]; [|done].
  destruct (percentage _ _) as [cp|]; [|done].
  cbn. intros [= <-]. exists uid, l, c, q. cbn.
  rewrite Hl. cbn. by repeat split.
Qed.

Lemma success_response_reports_stored_row_witness :
  let db := single_module_db 3 0 in
  let now := 1762250445000000%Z in
  let p := {| resp_completed := true;
              resp_completed_at := Some "04.11.2025 10:00"%string;
              module_progress := 33%Z; course_progress := 33%Z;
              module_completed := 1; module_total := 3;
              course_completed := 1; course_total := 3;
              message := "Урок отмечен как пройденный" |} in
  payload_of (MarkLessonCompletedView_post (mark 7 1 "true") now db).1 = Some p /\
  exists uid l row,
    progress (MarkLessonCompletedView_post (mark 7 1 "true") now db).2 !! (uid, l)
    = Some row /\
    resp_completed_at p = strftime <$> Progress.completed_at row.
Proof.
  intros db now p.
  assert (Hp : payload_of
                 (MarkLessonCompletedView_post (mark 7 1 "true") now db).1
               = Some p) by (vm_compute; reflexivity).
  split; [exact Hp|].
  destruct (success_response_reports_stored_row (mark 7 1 "true") now db p Hp)
    as (uid & l & _ & row & _ & _ & _ & _ & Hrow & _ & Hat & _).
  exists uid, l, row. split; [exact Hrow | exact Hat].
Defined.

(** X15: the lesson page shows what the completion request has
    just reported. After a request answered with success, the page of that
    lesson for that user, read from the returned database, shows the
    [completed] of the response, a [completed_at] whose formatting to the
    minute is the one of the response, and the same counts and percentages
    for the module and for the course. *)
Theorem lesson_page_shows_toggle_result request now db p :
  payload_of (MarkLessonCompletedView_post request now db).1 = Some p ->
  exists l lesson c ctx state,
    POST_lesson_id request = Some l /\
    lessons db !! l = Some lesson /\
    module_course db (Lesson.module lesson) = Some c /\
    LessonDetailView_get (user request) c (Lesson.module lesson) l
      (MarkLessonCompletedView_post request now db).2 = PageOk ctx /\
    ld_user_progress ctx = Some state /\
    state_completed state = resp_completed p /\
    strftime <$> state_completed_at state = resp_completed_at p /\
    ld_module_progress ctx
    = Some {| rollup_completed := module_completed p;
              rollup_total := module_total p;
              rollup_percentage := module_progress p |} /\
    ld_course_progress ctx
    = Some {| rollup_completed := course_completed p;
              rollup_total := course_total p;
              rollup_percentage := course_progress p |}.
Proof.
  unfold MarkLessonCompletedView_post.
  destruct (POST_lesson_id request) as [l|]; [|done].
  destruct (lessons db !! l) as [lesson|] eqn:Hl; [|done].
  destruct (user request) as [|uid]; [done|].
  destruct (module_course db (Lesson.module lesson)) as [c|] eqn:Hc; [|done].
  destruct (is_enrolled db uid c) eqn:He; [|done]. cbn [negb].
  pose proof (toggle_lookup now uid l
                (bool_decide (POST_completed request = Some "true"%string))
                (progress db)) as Hrow.
  destruct (toggle _ _ _ _ _) as [q table]. cbn [fst snd] in *.
  set (db' := set_progress db table).
  destruct (percentage (count_completed db' uid (in_module db' (Lesson.module lesson)))
              (count_lessons db' (in_module db' (Lesson.module lesson))))
    as [mp|] eqn:Hmp; [|done].
  destruct (percentage (count_completed db' uid (in_course db' c))
              (count_lessons db' (in_course db' c)))
    as [cp|] eqn:Hcp; [|done].
  cbn [fst snd payload_of]. intros [= <-]. cbn.
  destruct (lesson_index_elem_of l (module_lessons db' (Lesson.module lesson)))
    as [i Hi].
  { apply module_lessons_NoDup. }
  { apply elem_of_module_lessons_fst. change (lessons db') with (lessons db).
    by rewrite Hl. }
  eexists l, lesson, c, _, (lesson_state db' uid l).
  split; [done|]. split; [done|]. split; [done|].
  unfold LessonDetailView_get.
  change (lessons db') with (lessons db). rewrite Hl.
  rewrite Nat.eqb_refl. cbn [negb].
  change (module_course db') with (module_course db). rewrite Hc.
  rewrite Nat.eqb_refl. cbn [negb].
  rewrite Hi.
  change (is_enrolled db' uid c) with (is_enrolled db uid c). rewrite He.
  rewrite Hmp, Hcp. split; [reflexivity|]. cbn.
  split; [done|]. unfold lesson_state.
  change (progress db') with table. rewrite Hrow. cbn. done.
Qed.

Lemma lesson_page_shows_toggle_result_witness :
  let db := single_module_db 3 0 in
  let now := 1762250445000000%Z in
  let p := {| resp_completed := true;
              resp_completed_at := Some "04.11.2025 10:00"%string;
              module_progress := 33%Z; course_progress := 33%Z;
              module_completed := 1; module_total := 3;
              course_completed := 1; course_total := 3;
              message := "Урок отмечен как пройденный" |} in
  payload_of (MarkLessonCompletedView_post (mark 7 1 "true") now db).1 = Some p /\
  exists l lesson c ctx,
    LessonDetailView_get (AuthenticatedUser 7) c (Lesson.module lesson) l
      (MarkLessonCompletedView_post (mark 7 1 "true") now db).2 = PageOk ctx /\
    ld_module_progress ctx
    = Some {| rollup_completed := 1; rollup_total := 3; rollup_percentage := 33%Z |}.
Proof.
  intros db now p.
  assert (Hp : payload_of
                 (MarkLessonCompletedView_post (mark 7 1 "true") now db).1
               = Some p) by (vm_compute; reflexivity).
  split; [exact Hp|].
  destruct (lesson_page_shows_toggle_result (mark 7 1 "true") now db p Hp)
    as (l & lesson & c & ctx & state & _ & _ & _ & Hok & _ & _ & _ & Hm & _).
  exists l, lesson, c, ctx. split; [exact Hok | exact Hm].
Defined.

(** ** The module page *)

Lemma module_page_inv user c m db ctx :
  ModuleDetailView_get user c m db = PageOk ctx ->
  modules db !! m = Some {| CourseModule.course := c |} /\
  md_lessons ctx = module_lessons db m.
Proof.
  unfold ModuleDetailView_get.
  destruct (modules db !! m) as [[c']|]; [|done]. cbn.
  destruct (Nat.eqb_spec c' c) as [->|]; [|done]. cbn [negb].
  destruct user as [|uid]; [by intros [= <-]|].
  destruct (is_enrolled db uid c); [|by intros [= <-]].
  destruct (percentage _ _); [|done]. by intros [= <-].
Qed.

(** X16: the module page lists every lesson of the module once,
    in ascending order of the order numbers, published or not, and for an
    enrolled user gives each lesson its state: the stored row's
    [completed] and [completed_at], and not completed with no timestamp
    for a lesson the user has no row for. The total of the page is the
    number of lessons listed. *)
Theorem module_page_lists_progress uid c m db ctx :
  ModuleDetailView_get (AuthenticatedUser uid) c m db = PageOk ctx ->
  is_enrolled db uid c = true ->
  NoDup (md_lessons ctx).*1 /\
  StronglySorted order_le (md_lessons ctx) /\
  (forall l, l ∈ (md_lessons ctx).*1 <->
             Lesson.module <$> lessons db !! l = Some m) /\
  exists entries total_percentage,
    lessons_with_progress ctx = Some entries /\
    entries.*1 = (md_lessons ctx).*1 /\
    (forall l s, (l, s) ∈ entries ->
       match progress db !! (uid, l) with
       | Some row => s = {| state_completed := Progress.completed row;
                            state_completed_at := Progress.completed_at row |}
       | None => s = {| state_completed := false; state_completed_at := None |}
       end) /\
    md_user_progress ctx
    = Some {| rollup_completed := count_completed db uid (in_module db m);
              rollup_total := length entries;
              rollup_percentage := total_percentage |}.
Proof.
  intros Hok He.
  destruct (module_page_inv _ _ _ _ _ Hok) as [Hm Hls].
  rewrite Hls.
  split; [apply module_lessons_NoDup|].
  split; [apply module_lessons_sorted|].
  split; [intros l; apply elem_of_module_lessons_fst|].
  unfold ModuleDetailView_get in Hok. rewrite Hm in Hok. cbn in Hok.
  rewrite Nat.eqb_refl, He in Hok. cbn in Hok.
  destruct (percentage _ _) as [pc|]; [|done].
  injection Hok as <-. cbn.
  eexists _, pc. split; [reflexivity|].
  split; [|split].
  - rewrite <- !list_fmap_compose. by apply list_fmap_ext.
  - intros l s [[l' r] [[= -> ->] _]]%list_elem_of_fmap. cbn.
    unfold lesson_state. by destruct (progress db !! (uid, l')).
  - by rewrite length_map.
Qed.

Lemma module_page_lists_progress_witness :
  let db := single_module_db 3 1 in
  exists ctx,
    ModuleDetailView_get (AuthenticatedUser 7) 1 1 db = PageOk ctx /\
    is_enrolled db 7 1 = true /\
    (md_lessons ctx).*1 = [1; 2; 3] /\
    NoDup (md_lessons ctx).*1.
Proof.
  intros db.
  destruct (ModuleDetailView_get (AuthenticatedUser 7) 1 1 db) as [ctx| |] eqn:Hok;
    [|vm_compute in Hok; discriminate|vm_compute in Hok; discriminate].
  assert (He : is_enrolled db 7 1 = true) by (vm_compute; reflexivity).
  exists ctx. split; [reflexivity|]. split; [exact He|]. split.
  - vm_compute in Hok. injection Hok as <-. reflexivity.
  - exact (proj1 (module_page_lists_progress 7 1 1 db ctx Hok He)).
Defined.

(** X17: the pages show progress to enrolled users only. On the
    module page and on the lesson page the progress entries of the context
    are present exactly when the request comes from an authenticated user
    who is enrolled in the course of the page. *)
Theorem pages_show_progress_iff_enrolled user c m l db :
  (forall ctx, ModuleDetailView_get user c m db = PageOk ctx ->
     (is_Some (md_user_progress ctx) <->
      exists uid, user = AuthenticatedUser uid /\ is_enrolled db uid c = true) /\
     (is_Some (lessons_with_progress ctx) <-> is_Some (md_user_progress ctx))) /\
  (forall ctx, LessonDetailView_get user c m l db = PageOk ctx ->
     (is_Some (ld_user_progress ctx) <->
      exists uid, user = AuthenticatedUser uid /\ is_enrolled db uid c = true) /\
     (is_Some (ld_module_progress ctx) <-> is_Some (ld_user_progress ctx)) /\
     (is_Some (ld_course_progress ctx) <-> is_Some (ld_user_progress ctx))).
Proof.
  split.
  - intros ctx. unfold ModuleDetailView_get.
    destruct (modules db !! m) as [[c']|]; [|done]. cbn.
    destruct (Nat.eqb_spec c' c) as [->|]; [|done]. cbn [negb].
    destruct user as [|uid].
    { intros [= <-]. cbn. repeat split; try by intros [? ?].
      by intros (? & ? & _). }
    destruct (is_enrolled db uid c) eqn:He.
    + destruct (percentage _ _); [|done]. intros [= <-]. cbn.
      repeat split; eauto.
    + intros [= <-]. cbn. repeat split; try by intros [? ?].
      intros (uid' & [= <-] & ?). congruence.
  - intros ctx. unfold LessonDetailView_get.
    destruct (lessons db !! l) as [lesson|]; [|done].
    destruct (negb (Lesson.module lesson =? m)); [done|].
    destruct (module_course db m) as [course|]; [|done].
    destruct (Nat.eqb_spec course c) as [->|]; [|done]. cbn [negb].
    destruct (lesson_index l (module_lessons db m)) as [i|]; [|done].
    destruct user as [|uid].
    { intros [= <-]. cbn. repeat split; try by intros [? ?].
      by intros (? & ? & _). }
    destruct (is_enrolled db uid c) eqn:He.
    + destruct (percentage _ _); [|done].
      destruct (percentage _ _); [|done]. intros [= <-]. cbn.
      repeat split; eauto.
    + intros [= <-]. cbn. repeat split; try by intros [? ?].
      intros (uid' & [= <-] & ?). congruence.
Qed.

Lemma pages_show_progress_iff_enrolled_witness :
  let db := single_module_db 3 0 in
  exists ctx,
    ModuleDetailView_get (AuthenticatedUser 8) 1 1 db = PageOk ctx /\
    is_enrolled db 8 1 = false /\
    md_user_progress ctx = None.
Proof.
  intros db.
  destruct (ModuleDetailView_get (AuthenticatedUser 8) 1 1 db) as [ctx| |] eqn:Hok;
    [|vm_compute in Hok; discriminate|vm_compute in Hok; discriminate].
  assert (He : is_enrolled db 8 1 = false) by (vm_compute; reflexivity).
  exists ctx. split; [reflexivity|]. split; [exact He|].
  destruct (md_user_progress ctx) as [r|] eqn:Hr; [|reflexivity].
  exfalso.
  destruct (proj1 (proj1 (proj1 (pages_show_progress_iff_enrolled
                                   (AuthenticatedUser 8) 1 1 1 db) ctx Hok))
              (mk_is_Some _ _ Hr)) as (uid & Hu & He').
  injection Hu as <-. rewrite He in He'. discriminate.
Defined.

(** X18: a lesson is served only under its own module and course.
    The lesson page answers 404 exactly when the lesson does not exist,
    belongs to another module than the one in the URL, or that module does
    not belong to the course in the URL; the module page answers 404
    exactly when the module does not exist or belongs to another
    course. *)
Theorem pages_not_found_iff_url_mismatch user c m l db :
  (LessonDetailView_get user c m l db = PageNotFound <->
   Lesson.module <$> lessons db !! l <> Some m \/ module_course db m <> Some c) /\
  (ModuleDetailView_get user c m db = PageNotFound <->
   module_course db m <> Some c).
Proof.
  split.
  - unfold LessonDetailView_get.
    destruct (lessons db !! l) as [lesson|] eqn:Hl; cbn; [|split; [by left|done]].
    destruct (Nat.eqb_spec (Lesson.module lesson) m) as [Hm|Hne]; cbn [negb].
    2:{ split; [intros _; left; by intros [= ?] | done]. }
    destruct (module_course db m) as [course|]; [|split; [by right|done]].
    destruct (Nat.eqb_spec course c) as [->|Hne]; cbn [negb].
    2:{ split; [intros _; right; by intros [= ?] | done]. }
    split; [|by intros [?|?]; subst].
    destruct (lesson_index_elem_of l (module_lessons db m)) as [i Hi].
    { apply module_lessons_NoDup. }
    { apply elem_of_module_lessons_fst. rewrite Hl. cbn. by rewrite Hm. }
    rewrite Hi. destruct user as [|uid]; [done|].
    destruct (is_enrolled db uid c); [|done].
    by repeat case_match.
  - unfold ModuleDetailView_get, module_course.
    destruct (modules db !! m) as [[c']|]; cbn; [|done].
    destruct (Nat.eqb_spec c' c) as [->|Hne]; cbn [negb].
    2:{ split; [intros _; by intros [= ?] | done]. }
    split; [|done].
    destruct user as [|uid]; [done|].
    destruct (is_enrolled db uid c); [|done].
    by repeat case_match.
Qed.

Lemma pages_not_found_iff_url_mismatch_witness :
  let db := single_module_db 3 0 in
  module_course db 1 <> Some 2 /\
  LessonDetailView_get AnonymousUser 2 1 1 db = PageNotFound.
Proof.
  intros db.
  assert (H : module_course db 1 <> Some 2) by (vm_compute; discriminate).
  split; [exact H|].
  apply (proj1 (pages_not_found_iff_url_mismatch AnonymousUser 2 1 1 db)).
  by right.
Defined.

(** ** Age and the birth date checks *)

Ltac date_cases :=
  unfold date_le, add_years, Date.ltb, years_since, pair_ltb in *; cbn in *;
  repeat match goal with
         | |- context [(?a <? ?b)%Z] => destruct (Z.ltb_spec a b)
         | |- context [(?a =? ?b)%Z] => destruct (Z.eqb_spec a b)
         | |- context [(?a <=? ?b)%Z] => destruct (Z.leb_spec a b)
         | H : context [(?a <? ?b)%Z] |- _ => destruct (Z.ltb_spec a b)
         | H : context [(?a =? ?b)%Z] |- _ => destruct (Z.eqb_spec a b)
         | H : context [(?a <=? ?b)%Z] |- _ => destruct (Z.leb_spec a b)
         end;
  cbn in *.

(** X19: both birth date checks accept a date exactly from the
    sixteenth anniversary on. [UserProfile.clean] returns without error,
    and [ProfileForm.clean_birth_date] returns the date, if and only if
    today is not before the day with the same month and day sixteen years
    after the birth date; a profile or form without a birth date always
    passes. *)
Theorem birth_date_accepted_from_16 today birth :
  (UserProfile_clean today (Some birth) = None <->
   date_le (add_years 16 birth) today) /\
  (ProfileForm_clean_birth_date today (Some birth) = inr (Some birth) <->
   date_le (add_years 16 birth) today) /\
  UserProfile_clean today None = None /\
  ProfileForm_clean_birth_date today None = inr None.
Proof.
  destruct today as [ty tm td], birth as [by_ bm bd].
  unfold UserProfile_clean, ProfileForm_clean_birth_date, UserProfile_age.
  repeat split; try done; date_cases; try done; try lia.
Qed.

Lemma birth_date_accepted_from_16_witness :
  let today := {| Date.year := 2026; Date.month := 11; Date.day := 4 |}%Z in
  let birth := {| Date.year := 2010; Date.month := 11; Date.day := 4 |}%Z in
  let late := {| Date.year := 2010; Date.month := 11; Date.day := 5 |}%Z in
  date_le (add_years 16 birth) today /\
  UserProfile_clean today (Some birth) = None /\
  UserProfile_clean today (Some late)
  = Some "Вам должно быть не менее 16 лет!"%string.
Proof.
  intros today birth late.
  assert (H : date_le (add_years 16 birth) today) by reflexivity.
  split; [exact H|].
  split; [exact (proj2 (proj1 (birth_date_accepted_from_16 today birth)) H)|].
  reflexivity.
Defined.

(** X20: [is_adult] holds exactly from the eighteenth anniversary
    of the birth date on, never without a birth date, and whoever is an
    adult passes the birth date check of [UserProfile.clean]. *)
Theorem is_adult_from_18 today birth :
  (UserProfile_is_adult today (Some birth) = true <->
   date_le (add_years 18 birth) today) /\
  UserProfile_is_adult today None = false /\
  (UserProfile_is_adult today (Some birth) = true ->
   UserProfile_clean today (Some birth) = None).
Proof.
  destruct today as [ty tm td], birth as [by_ bm bd].
  unfold UserProfile_is_adult, UserProfile_clean, UserProfile_age.
  repeat split; try done; date_cases; try done; try lia.
Qed.

Lemma is_adult_from_18_witness :
  let today := {| Date.year := 2026; Date.month := 11; Date.day := 4 |}%Z in
  let birth := {| Date.year := 2008; Date.month := 11; Date.day := 4 |}%Z in
  UserProfile_is_adult today (Some birth) = true /\
  UserProfile_clean today (Some birth) = None.
Proof.
  intros today birth.
  assert (H : UserProfile_is_adult today (Some birth) = true) by reflexivity.
  split; [exact H|].
  exact (proj2 (proj2 (is_adult_from_18 today birth)) H).
Defined.

(** X21: the age counts anniversaries. On the day with the month
    and day of birth [n] years after the birth date the age is [n]; the
    age never decreases as the current date advances; and it is not
    negative once the birth date is reached. *)
Theorem age_counts_anniversaries birth :
  (forall n, UserProfile_age (add_years n birth) (Some birth) = Some n) /\
  (forall t1 t2, date_le t1 t2 ->
     (years_since t1 birth <= years_since t2 birth)%Z) /\
  (forall today, date_le birth today -> (0 <= years_since today birth)%Z).
Proof.
  destruct birth as [by_ bm bd]. unfold UserProfile_age.
  split; [|split].
  - intros n. f_equal. date_cases; lia.
  - intros [y1 m1 d1] [y2 m2 d2] Hle. date_cases; try done; lia.
  - intros [ty tm td] Hle. date_cases; try done; lia.
Qed.

Lemma age_counts_anniversaries_witness :
  let birth := {| Date.year := 2008; Date.month := 2; Date.day := 29 |}%Z in
  let t1 := {| Date.year := 2025; Date.month := 2; Date.day := 28 |}%Z in
  let t2 := {| Date.year := 2025; Date.month := 3; Date.day := 1 |}%Z in
  date_le t1 t2 /\ (years_since t1 birth <= years_since t2 birth)%Z /\
  years_since t1 birth = 16%Z /\ years_since t2 birth = 17%Z.
Proof.
  intros birth t1 t2.
  assert (H : date_le t1 t2) by reflexivity.
  split; [exact H|].
  split; [exact (proj1 (proj2 (age_counts_anniversaries birth)) t1 t2 H)|].
  split; reflexivity.
Defined.

(** ** The phone number *)

Lemma lstrip_nonspace isspace s :
  Forall (fun c => isspace c = false) s -> lstrip isspace s = s.
Proof. destruct 1 as [|c s Hc _]; cbn; [done|]. by rewrite Hc. Qed.

Lemma str_strip_nonspace isspace s :
  Forall (fun c => isspace c = false) s -> str_strip isspace s = s.
Proof.
  intros Hs. unfold str_strip. rewrite (lstrip_nonspace _ _ Hs).
  rewrite lstrip_nonspace; [apply rev_involutive|].
  apply List.Forall_rev, Hs.
Qed.

Lemma filter_isdigit_Forall (isdigit : N -> bool) s :
  Forall (fun c => isdigit c = true) (List.filter isdigit s).
Proof.
  apply List.Forall_forall. intros c Hin.
  by apply List.filter_In in Hin as [_ ?].
Qed.

Lemma filter_isdigit_id (isdigit : N -> bool) s :
  Forall (fun c => isdigit c = true) s -> List.filter isdigit s = s.
Proof.
  intros Hs. apply filter_all. intros c Hc.
  rewrite List.Forall_forall in Hs. by apply Hs, list_elem_of_In.
Qed.

(** What [clean_phone] computes before its two length checks. *)
Lemma clean_phone_inv isspace isdigit text cleaned :
  text <> [] ->
  ProfileForm_clean_phone isspace isdigit (Some text) = inr (Some cleaned) ->
  10 <= length cleaned <= 15 /\ phone_shape isdigit cleaned.
Proof.
  intros Hne. unfold ProfileForm_clean_phone.
  destruct text as [|c0 text0]; [done|].
  set (stripped := str_strip isspace (c0 :: text0)).
  set (cp := match stripped with
             | [] => List.filter isdigit stripped
             | c :: rest =>
                 if (c =? plus_sign)%N then plus_sign :: List.filter isdigit rest
                 else List.filter isdigit stripped
             end).
  assert (Hshape : phone_shape isdigit cp).
  { unfold cp. destruct stripped as [|c rest].
    - left. constructor.
    - destruct (c =? plus_sign)%N.
      + right. eexists. split; [done|]. apply filter_isdigit_Forall.
      + left. apply filter_isdigit_Forall. }
  destruct (Nat.ltb_spec (length cp) 10); [done|].
  destruct (Nat.ltb_spec 15 (length cp)); [done|].
  intros [= <-]. split; [lia | done].
Qed.

(** X22: an accepted phone number is short and plain. For a
    non-empty input, whatever [clean_phone] returns has between 10 and 15
    characters and consists of digits only, after an optional leading plus
    sign; the plus sign counts toward the length. *)
Theorem clean_phone_shape isspace isdigit text cleaned :
  text <> [] ->
  ProfileForm_clean_phone isspace isdigit (Some text) = inr (Some cleaned) ->
  10 <= length cleaned <= 15 /\
  (Forall (fun c => isdigit c = true) cleaned \/
   exists rest, cleaned = plus_sign :: rest /\
                Forall (fun c => isdigit c = true) rest).
Proof. apply clean_phone_inv. Qed.

Lemma clean_phone_shape_witness :
  let text := [32; 43; 55; 32; 57; 49; 54; 45; 49; 50; 51; 45; 52; 53; 54; 55; 32]%N in
  let cleaned := [43; 55; 57; 49; 54; 49; 50; 51; 52; 53; 54; 55]%N in
  text <> [] /\
  ProfileForm_clean_phone ascii_isspace ascii_isdigit (Some text)
  = inr (Some cleaned) /\
  10 <= length cleaned <= 15.
Proof.
  intros text cleaned.
  assert (Hne : text <> []) by discriminate.
  assert (Hc : ProfileForm_clean_phone ascii_isspace ascii_isdigit (Some text)
               = inr (Some cleaned)) by (vm_compute; reflexivity).
  split; [exact Hne|]. split; [exact Hc|].
  exact (proj1 (clean_phone_shape ascii_isspace ascii_isdigit text cleaned Hne Hc)).
Defined.

(** X23: cleaning a phone number twice changes nothing more. When
    digits are not white space and the plus sign is neither a digit nor
    white space, a value that [clean_phone] has returned is returned
    unchanged when it is cleaned again. *)
Theorem clean_phone_idempotent isspace isdigit phone cleaned :
  (forall c, isdigit c = true -> isspace c = false) ->
  isspace plus_sign = false ->
  isdigit plus_sign = false ->
  ProfileForm_clean_phone isspace isdigit phone = inr cleaned ->
  ProfileForm_clean_phone isspace isdigit cleaned = inr cleaned.
Proof.
  intros Hds Hps Hpd Hclean.
  destruct phone as [[|c0 text0]|]; [by injection Hclean as <-| |by injection Hclean as <-].
  destruct cleaned as [cp|].
  2:{ unfold ProfileForm_clean_phone in Hclean. by repeat case_match. }
  destruct (clean_phone_inv isspace isdigit (c0 :: text0) cp) as [Hlen Hshape];
    [done|done|].
  assert (Hdigits_nonspace :
            forall s, Forall (fun c => isdigit c = true) s ->
                      Forall (fun c => isspace c = false) s).
  { intros s Hs. eapply List.Forall_impl; [|exact Hs]. apply Hds. }
  assert (Hstrip : str_strip isspace cp = cp).
  { apply str_strip_nonspace. destruct Hshape as [Hd|(rest & -> & Hd)].
    - by apply Hdigits_nonspace.
    - constructor; [done|]. by apply Hdigits_nonspace. }
  unfold ProfileForm_clean_phone.
  destruct cp as [|c rest]; [cbn in Hlen; lia|].
  rewrite Hstrip.
  assert (Hsame : (if (c =? plus_sign)%N
                   then plus_sign :: List.filter isdigit rest
                   else List.filter isdigit (c :: rest)) = c :: rest).
  { destruct Hshape as [Hd|(rest' & [= -> <-] & Hd)].
    - destruct (N.eqb_spec c plus_sign) as [->|_].
      + apply List.Forall_inv in Hd. congruence.
      + by apply filter_isdigit_id.
    - rewrite N.eqb_refl. f_equal. by apply filter_isdigit_id. }
  rewrite Hsame.
  destruct (Nat.ltb_spec (length (c :: rest)) 10); [lia|].
  destruct (Nat.ltb_spec 15 (length (c :: rest))); [lia|]. done.
Qed.

Lemma clean_phone_idempotent_witness :
  let text := [32; 43; 55; 32; 57; 49; 54; 45; 49; 50; 51; 45; 52; 53; 54; 55; 32]%N in
  let cleaned := Some [43; 55; 57; 49; 54; 49; 50; 51; 52; 53; 54; 55]%N in
  (forall c, ascii_isdigit c = true -> ascii_isspace c = false) /\
  ProfileForm_clean_phone ascii_isspace ascii_isdigit (Some text) = inr cleaned /\
  ProfileForm_clean_phone ascii_isspace ascii_isdigit cleaned = inr cleaned.
Proof.
  intros text cleaned.
  assert (Hds : forall c, ascii_isdigit c = true -> ascii_isspace c = false).
  { intros c. unfold ascii_isdigit, ascii_isspace.
    rewrite andb_true_iff, !N.leb_le. intros [? ?].
    apply orb_false_iff. split; [apply orb_false_iff; split|].
    - apply N.eqb_neq. lia.
    - apply andb_false_iff. right. apply N.leb_gt. lia.
    - apply andb_false_iff. right. apply N.leb_gt. lia. }
  assert (Hc : ProfileForm_clean_phone ascii_isspace ascii_isdigit (Some text)
               = inr cleaned) by (vm_compute; reflexivity).
  split; [exact Hds|]. split; [exact Hc|].
  exact (clean_phone_idempotent ascii_isspace ascii_isdigit (Some text) cleaned
           Hds eq_refl eq_refl Hc).
Defined.

(** ** Bounds on the roll-up percentage *)

Lemma percentage_within_one_200 :
  forallb
    (fun total =>
       forallb (fun completed => percentage_within_one completed total)
         (seq 0 (S total)))
    (seq 1 200) = true.
Proof. vm_compute. reflexivity. Qed.

(** X24: for a module or course of up to 200 lessons the roll-up
    percentage is always computed, lies between 0 and 100, is never above
    the exact floor of 100 * completed / total and at most one below it,
    and is 100 exactly when every lesson is completed. *)
Theorem percentage_at_most_one_below completed total :
  1 <= total <= 200 -> completed <= total ->
  exists p,
    percentage completed total = Some p /\
    (floor_percentage completed total - 1 <= p <= floor_percentage completed total)%Z /\
    (0 <= p <= 100)%Z /\
    (p = 100%Z <-> completed = total).
Proof.
  intros Ht Hc.
  pose proof percentage_within_one_200 as Hall.
  rewrite forallb_forall in Hall.
  specialize (Hall total). rewrite in_seq in Hall.
  specialize (Hall ltac:(lia)).
  rewrite forallb_forall in Hall.
  specialize (Hall completed). rewrite in_seq in Hall.
  specialize (Hall ltac:(lia)).
  unfold percentage_within_one in Hall.
  destruct (percentage completed total) as [p|]; [|done].
  exists p. split; [done|].
  rewrite !andb_true_iff, !Z.leb_le in Hall.
  destruct Hall as [[[Hlo Hhi] H0] H100].
  apply Bool.eqb_prop in H100.
  assert (Hfloor : (floor_percentage completed total <= 100)%Z).
  { unfold floor_percentage. rewrite (proj2 (Nat.ltb_lt 0 total)) by lia.
    apply Z.div_le_upper_bound; lia. }
  split; [lia|]. split; [lia|].
  rewrite <- Z.eqb_eq, <- Nat.eqb_eq, H100. done.
Qed.

Lemma percentage_at_most_one_below_witness :
  1 <= 100 <= 200 /\ 29 <= 100 /\
  exists p, percentage 29 100 = Some p /\
            (floor_percentage 29 100 - 1 <= p <= floor_percentage 29 100)%Z.
Proof.
  assert (Ht : 1 <= 100 <= 200) by lia.
  assert (Hc : 29 <= 100) by lia.
  split; [exact Ht|]. split; [exact Hc|].
  destruct (percentage_at_most_one_below 29 100 Ht Hc) as (p & Hp & Hb & _).
  exists p. split; [exact Hp | exact Hb].
Defined.

(** ** The module page and the module list after a request *)

(** X25: the module page shows what the completion request has
    just reported. After a request answered with success, the module page
    of that lesson's module for that user, read from the returned
    database, shows the module roll-up of the response and lists the
    lesson with the [completed] of the response and a [completed_at] whose
    formatting to the minute is the one of the response. *)
Theorem module_page_shows_toggle_result request now db p :
  payload_of (MarkLessonCompletedView_post request now db).1 = Some p ->
  exists l lesson c ctx entries state,
    POST_lesson_id request = Some l /\
    lessons db !! l = Some lesson /\
    module_course db (Lesson.module lesson) = Some c /\
    ModuleDetailView_get (user request) c (Lesson.module lesson)
      (MarkLessonCompletedView_post request now db).2 = PageOk ctx /\
    md_user_progress ctx
    = Some {| rollup_completed := module_completed p;
              rollup_total := module_total p;
              rollup_percentage := module_progress p |} /\
    lessons_with_progress ctx = Some entries /\
    (l, state) ∈ entries /\
    state_completed state = resp_completed p /\
    strftime <$> state_completed_at state = resp_completed_at p.
Proof.
  unfold MarkLessonCompletedView_post.
  destruct (POST_lesson_id request) as [l|]; [|done].
  destruct (lessons db !! l) as [lesson|] eqn:Hl; [|done].
  destruct (user request) as [|uid]; [done|].
  destruct (module_course db (Lesson.module lesson)) as [c|] eqn:Hc; [|done].
  destruct (is_enrolled db uid c) eqn:He; [|done]. cbn [negb].
  pose proof (toggle_lookup now uid l
                (bool_decide (POST_completed request = Some "true"%string))
                (progress db)) as Hrow.
  destruct (toggle _ _ _ _ _) as [q table]. cbn [fst snd] in *.
  set (db' := set_progress db table).
  destruct (percentage (count_completed db' uid (in_module db' (Lesson.module lesson)))
              (count_lessons db' (in_module db' (Lesson.module lesson))))
    as [mp|] eqn:Hmp; [|done].
  destruct (percentage (count_completed db' uid (in_course db' c))
              (count_lessons db' (in_course db' c)))
    as [cp|] eqn:Hcp; [|done].
  cbn [fst snd payload_of]. intros [= <-]. cbn.
  unfold module_course in Hc.
  destruct (modules db !! Lesson.module lesson) as [[c']|] eqn:Hm; [|done].
  cbn in Hc. injection Hc as ->.
  eexists l, lesson, c, _, _, (lesson_state db' uid l).
  split; [done|]. split; [done|].
  split; [by unfold module_course; rewrite Hm|].
  unfold ModuleDetailView_get.
  change (modules db') with (modules db). rewrite Hm. cbn.
  rewrite Nat.eqb_refl. cbn [negb].
  change (is_enrolled db' uid c) with (is_enrolled db uid c). rewrite He.
  rewrite module_lessons_length, Hmp.
  split; [reflexivity|]. cbn. split; [done|]. split; [reflexivity|].
  split.
  - apply list_elem_of_fmap. exists (l, lesson). split; [done|].
    apply elem_of_module_lessons. by change (lessons db') with (lessons db).
  - unfold lesson_state. change (progress db') with table. by rewrite Hrow.
Qed.

Lemma module_page_shows_toggle_result_witness :
  let db := single_module_db 3 0 in
  let p := {| resp_completed := true; resp_completed_at := Some "01.01.1970 00:00"%string;
              module_progress := 33%Z; course_progress := 33%Z;
              module_completed := 1; module_total := 3;
              course_completed := 1; course_total := 3;
              message := "Урок отмечен как пройденный" |} in
  payload_of (MarkLessonCompletedView_post (mark 7 1 "true") 2000%Z db).1 = Some p /\
  exists lesson c ctx,
    ModuleDetailView_get (AuthenticatedUser 7) c (Lesson.module lesson)
      (MarkLessonCompletedView_post (mark 7 1 "true") 2000%Z db).2 = PageOk ctx /\
    md_user_progress ctx
    = Some {| rollup_completed := 1; rollup_total := 3; rollup_percentage := 33%Z |}.
Proof.
  intros db p.
  assert (Hp : payload_of
                 (MarkLessonCompletedView_post (mark 7 1 "true") 2000%Z db).1
               = Some p) by (vm_compute; reflexivity).
  split; [exact Hp|].
  destruct (module_page_shows_toggle_result (mark 7 1 "true") 2000%Z db p Hp)
    as (l & lesson & c & ctx & entries & state & _ & _ & _ & Hok & Hm & _).
  exists lesson, c, ctx. split; [exact Hok | exact Hm].
Defined.

(** ** Lessons per module and per course *)

Lemma fold_left_add l a : fold_left Nat.add l a = a + fold_left Nat.add l 0.
Proof.
  revert a. induction l as [|x l IH]; intros a; cbn [fold_left]; [lia|].
  rewrite (IH (a + x)), (IH (0 + x)). lia.
Qed.

Lemma sum_cons x l : fold_left Nat.add (x :: l) 0 = x + fold_left Nat.add l 0.
Proof. cbn [fold_left]. rewrite fold_left_add. lia. Qed.

Lemma filter_unique_key (ms : list nat) (m : nat) :
  NoDup ms -> m ∈ ms -> List.filter (Nat.eqb m) ms = [m].
Proof.
  induction 1 as [|x ms Hx Hnd IH]; intros Hin; [by apply elem_of_nil in Hin|].
  cbn. apply elem_of_cons in Hin as [->|Hin].
  - rewrite Nat.eqb_refl. f_equal. apply filter_none.
    intros y Hy. apply Nat.eqb_neq. by intros <-.
  - rewrite (proj2 (Nat.eqb_neq m x)) by (by intros ->). by apply IH.
Qed.

(** X26: the lesson total of the module list page is the course
    total of the roll-ups. For an existing course, the sum of the lesson
    counts of its modules equals the number of lessons whose module
    belongs to the course, which is the [course_total] that the progress
    endpoint and the lesson page report; for a missing course the page is
    404. *)
Theorem module_list_total_is_course_total c db :
  (is_Some (courses db !! c) ->
   ModuleListView_total_lessons c db = PageOk (count_lessons db (in_course db c))) /\
  (courses db !! c = None -> ModuleListView_total_lessons c db = PageNotFound).
Proof.
  split; [|by intros H; unfold ModuleListView_total_lessons; rewrite H].
  intros [course Hcourse]. unfold ModuleListView_total_lessons. rewrite Hcourse.
  f_equal.
  set (mrows := List.filter
                  (fun row : nat * CourseModule.t =>
                     Nat.eqb (CourseModule.course row.2) c)
                  (map_to_list (modules db))).
  assert (Hnd : NoDup mrows.*1).
  { apply filter_fst_NoDup, NoDup_fst_map_to_list. }
  assert (Hin : forall m, m ∈ mrows.*1 <-> module_course db m = Some c).
  { intros m. unfold mrows, module_course. rewrite list_elem_of_fmap. split.
    - intros [[m' r] [-> Hr]].
      apply list_elem_of_In, List.filter_In in Hr as [Hr Hc].
      apply list_elem_of_In, elem_of_map_to_list in Hr. cbn in *.
      rewrite Hr. cbn. f_equal. by apply Nat.eqb_eq.
    - destruct (modules db !! m) as [r|] eqn:Hr; [|done]. cbn. intros [= Hc].
      exists (m, r). split; [done|].
      apply list_elem_of_In, List.filter_In. split.
      + by apply list_elem_of_In, elem_of_map_to_list.
      + cbn. by apply Nat.eqb_eq. }
  unfold count_lessons.
  transitivity
    (fold_left Nat.add
       (List.map
          (fun m => length (List.filter
                              (fun row : nat * Lesson.t =>
                                 Nat.eqb (Lesson.module row.2) m && true)
                              (map_to_list (lessons db))))
          mrows.*1) 0).
  { f_equal. rewrite <- list_fmap_compose. apply List.map_ext. intros [m r]. cbn.
    f_equal. apply List.filter_ext_in. intros [l lr] Hl.
    apply list_elem_of_In, elem_of_map_to_list in Hl. cbn.
    unfold in_module. rewrite Hl. cbn. rewrite andb_true_r.
    destruct (Nat.eqb_spec (Lesson.module lr) m) as [->|Hne].
    - by apply bool_decide_eq_true_2.
    - apply bool_decide_eq_false_2. by intros [= ?]. }
  assert (Hl : forall i x, (i, x) ∈ map_to_list (lessons db) ->
                           lessons db !! i = Some x)
    by (intros i x; apply elem_of_map_to_list).
  revert Hl. generalize (map_to_list (lessons db)). intros lrows Hl.
  induction lrows as [|[l lr] lrows IH].
  - cbn. clear. induction (mrows.*1) as [|m ms IHm]; [done|].
    cbn [List.map]. by rewrite sum_cons, IHm.
  - assert (Hsplit :
      fold_left Nat.add
        (List.map
           (fun m => length (List.filter
                               (fun row : nat * Lesson.t =>
                                  Nat.eqb (Lesson.module row.2) m && true)
                               ((l, lr) :: lrows)))
           mrows.*1) 0
      = length (List.filter (Nat.eqb (Lesson.module lr)) mrows.*1)
        + fold_left Nat.add
            (List.map
               (fun m => length (List.filter
                                   (fun row : nat * Lesson.t =>
                                      Nat.eqb (Lesson.module row.2) m && true)
                                   lrows))
               mrows.*1) 0).
    { clear. induction (mrows.*1) as [|m ms IHm]; [done|].
      cbn [List.map]. rewrite !sum_cons, IHm. cbn [List.filter snd].
      rewrite andb_true_r.
      destruct (Nat.eqb_spec (Lesson.module lr) m) as [->|Hne]; cbn [length]; lia. }
    rewrite Hsplit. clear Hsplit.
    rewrite IH.
    2:{ intros i x Hix. apply Hl. by apply list_elem_of_further. }
    cbn [List.filter fst].
    assert (Hlr : lessons db !! l = Some lr) by (apply Hl, list_elem_of_here).
    unfold in_course at 2, lesson_course. rewrite Hlr. cbn.
    destruct (decide (module_course db (Lesson.module lr) = Some c)) as [Hc|Hc].
    + rewrite (bool_decide_eq_true_2 _ Hc). cbn [length].
      rewrite filter_unique_key; [done|done|]. by apply Hin.
    + rewrite (bool_decide_eq_false_2 _ Hc).
      rewrite filter_none; [done|].
      intros m Hm. apply Nat.eqb_neq. intros <-. by apply Hc, Hin.
Qed.

Lemma module_list_total_is_course_total_witness :
  let db := single_module_db 3 0 in
  is_Some (courses db !! 1) /\
  ModuleListView_total_lessons 1 db = PageOk (count_lessons db (in_course db 1)) /\
  count_lessons db (in_course db 1) = 3.
Proof.
  intros db.
  assert (Hc : is_Some (courses db !! 1)) by (vm_compute; eauto).
  split; [exact Hc|].
  split; [exact (proj1 (module_list_total_is_course_total 1 db) Hc)|].
  vm_compute. reflexivity.
Defined.

(** ** Earlier orders *)

(** X27: a checkout leaves the earlier orders alone. The order
    table after a checkout is the table before it with at most the new
    order appended, every earlier order keeps its [total_amount], and the
    catalog and the progress table are untouched; order items keep
    referring to orders of the table, so the property carries over to the
    next checkout. *)
Theorem checkout_keeps_earlier_orders uid session db :
  items_reference_orders db ->
  let db' := (CheckoutView_post uid session db).2 in
  (exists new_orders, orders db' = orders db ++ new_orders /\
                      length new_orders <= 1) /\
  (forall pk, pk <= length (orders db) ->
     Order_total_amount db' pk = Order_total_amount db pk) /\
  items_reference_orders db' /\
  courses db' = courses db /\ modules db' = modules db /\
  lessons db' = lessons db /\ progress db' = progress db.
Proof.
  intros Hrefs db'. unfold db'.
  destruct (decide (get_cart_courses session db = [])) as [Hnil|Hne].
  - rewrite (checkout_empty uid session db Hnil). cbn.
    split; [exists []; split; [by rewrite app_nil_r | cbn; lia]|].
    split; [done|]. split; [exact Hrefs|]. by repeat split.
  - rewrite (checkout_nonempty uid session db Hne). cbn [snd].
    destruct (checkout_loop uid (S (length (orders db)))
                (get_cart_courses session db)
                (set_orders db
                   (orders db ++ [{| Order.user := uid; Order.status := "paid" |}])))
      as (Hc & Hm & Hl & Hp & Ho & Hi & _).
    cbn in Hc, Hm, Hl, Hp, Ho, Hi.
    split; [eexists; split; [exact Ho | cbn; lia]|].
    split; [|split; [|by repeat split]].
    + intros pk Hpk. unfold Order_total_amount.
      rewrite Hi, List.filter_app.
      rewrite (filter_none _ (List.map _ _)); [by rewrite app_nil_r|].
      intros item [row [-> _]]%list_elem_of_fmap.
      change (Nat.eqb (S (length (orders db))) pk = false).
      apply Nat.eqb_neq. lia.
    + intros item. rewrite Hi, Ho, elem_of_app, length_app. cbn.
      intros [Hold|[row [-> _]]%list_elem_of_fmap].
      * specialize (Hrefs item Hold). lia.
      * cbn. lia.
Qed.

Lemma checkout_keeps_earlier_orders_witness :
  let session := session_with [1; 2] in
  let db1 := (CheckoutView_post 7 session shop_db).2 in
  let db2 := (CheckoutView_post 8 session db1).2 in
  items_reference_orders shop_db /\
  items_reference_orders db1 /\
  Order_total_amount db2 1 = Order_total_amount db1 1.
Proof.
  intros session db1 db2.
  assert (H0 : items_reference_orders shop_db).
  { intros item Hitem. by apply elem_of_nil in Hitem. }
  assert (H1 : items_reference_orders db1).
  { exact (proj1 (proj2 (proj2 (checkout_keeps_earlier_orders 7 session shop_db H0)))). }
  split; [exact H0|]. split; [exact H1|].
  apply (proj1 (proj2 (checkout_keeps_earlier_orders 8 session db1 H1))).
  vm_compute. lia.
Defined.
